(** * Front-End Code Generator: section extraction, live preview and packaging

    A shallow embedding of [src/app.py] (a Streamlit script) and the
    properties of its text-segmentation and ZIP-packaging logic.

    Modelling choices.
    - A Python [str] is a list of Unicode code points ([N]); literals are
      written with [py "..."], which reads an ASCII Rocq string.
    - [st.session_state] is a finite map from attribute names to strings.
    - The Streamlit calls ([st.error], [st.warning], ...) are recorded, in
      order, as a list of [ui_event]s returned by each handler.
    - A [zipfile.ZipFile] opened for writing is the list of members written
      so far, oldest first; [namelist] lists the names in order.  [writestr]
      follows [zipfile.py] of CPython 3.11 on a POSIX system: the data is
      encoded first (a lone surrogate raises [UnicodeEncodeError], which is
      a [ValueError]), the name is cut at its first NUL, an empty name
      raises [IndexError], a lone surrogate in the name raises
      [UnicodeEncodeError], a name of more than 65535 bytes raises
      [struct.error], and otherwise the member is appended, duplicate names
      being kept.  Member data is kept as the text handed over (its UTF-8
      encoding is injective); compression, timestamps and the notice that
      the [warnings] module logs for a duplicate name are not modelled.
    - The completion service is an oracle answering the one request the
      generate handler makes; the handler is a small request/answer tree so
      that the number of requests is observable. *)

From Stdlib Require Import NArith Ascii String DecimalString HexadecimalString.
From stdpp Require Import base option list gmap strings.

Local Open Scope N_scope.
Local Open Scope list_scope.

(** ** Python strings *)

Abbreviation pystr := (list N).

Fixpoint py (s : string) : pystr :=
  match s with
  | EmptyString => []
  | String a s' => N_of_ascii a :: py s'
  end.
Arguments py : simpl never.

(** [str.isspace] on one code point: the characters removed by
    [str.strip()] when it is called without an argument. *)
Definition py_isspace (c : N) : bool :=
  ((0x09 <=? c) && (c <=? 0x0D)) || ((0x1C <=? c) && (c <=? 0x20))
  || (c =? 0x85) || (c =? 0xA0) || (c =? 0x1680)
  || ((0x2000 <=? c) && (c <=? 0x200A))
  || (c =? 0x2028) || (c =? 0x2029) || (c =? 0x202F) || (c =? 0x205F)
  || (c =? 0x3000).

Definition backtick : N := 0x60.
Definition newline : N := 0x0A.

(** [s.strip(chars)] for the set ["```"], i.e. the single character [`]. *)
Definition is_backtick (c : N) : bool := c =? backtick.

Fixpoint lstrip (p : N → bool) (s : pystr) : pystr :=
  match s with
  | [] => []
  | c :: s' => if p c then lstrip p s' else s
  end.

Definition rstrip (p : N → bool) (s : pystr) : pystr :=
  rev (lstrip p (rev s)).

Definition strip_chars (p : N → bool) (s : pystr) : pystr :=
  rstrip p (lstrip p s).

(** [s.strip()] *)
Definition strip (s : pystr) : pystr := strip_chars py_isspace s.

(** [not s]: the truth value of a string is its non-emptiness. *)
Definition is_empty (s : pystr) : bool :=
  match s with [] => true | _ => false end.

(** [s.startswith(sep)] at the head of [s]. *)
Fixpoint starts_with (sep s : pystr) : bool :=
  match sep, s with
  | [], _ => true
  | _ :: _, [] => false
  | a :: sep', c :: s' => (a =? c) && starts_with sep' s'
  end.

(** [s.find(sep)]: index of the leftmost occurrence, [None] for [-1]. *)
Fixpoint find (sep s : pystr) : option nat :=
  if starts_with sep s then Some 0%nat
  else match s with
       | [] => None
       | _ :: s' => S <$> find sep s'
       end.

(** [s.split(sep)] for a non-empty [sep]: scan from the left; wherever
    [sep] starts outside a separator already consumed, close the current
    piece and jump over the separator ([skip] counts the characters of it
    still to pass).  The result is the first piece and the later ones. *)
Fixpoint split_go (sep : pystr) (skip : nat) (s : pystr) : pystr * list pystr :=
  match s with
  | [] => ([], [])
  | c :: s' =>
      match skip with
      | S k => split_go sep k s'
      | O =>
          if starts_with sep s
          then let '(p, ps) := split_go sep (length sep - 1) s' in ([], p :: ps)
          else let '(p, ps) := split_go sep 0 s' in (c :: p, ps)
      end
  end.

Definition split (sep s : pystr) : list pystr :=
  let '(p, ps) := split_go sep 0 s in p :: ps.

(** [s.split("\n", 1)]: at most one cut, at the first newline. *)
Fixpoint split_newline_once (s : pystr) : list pystr :=
  match s with
  | [] => [[]]
  | c :: s' =>
      if c =? newline then [[]; s']
      else match split_newline_once s' with
           | p :: ps => (c :: p) :: ps
           | [] => [[c]]
           end
  end.

(** ** The application *)

(** The three choices of the framework select box. *)
Inductive framework := React | HtmlCssJs | Angular.

Definition framework_name (fw : framework) : pystr :=
  match fw with
  | React => py "React"
  | HtmlCssJs => py "HTML/CSS/JavaScript"
  | Angular => py "Angular"
  end.

(** [str.lower] on the ASCII letters, all that the framework names hold. *)
Definition lower (s : pystr) : pystr :=
  (λ c, if (0x41 <=? c) && (c <=? 0x5A) then c + 0x20 else c) <$> s.

(** A ZIP archive being written: its members, oldest first. *)
Abbreviation zipfile := (list (pystr * pystr)).

(** An exception, by the handler that catches it, with the text of
    [str(e)]: [except ValueError] catches the first kind only,
    [except Exception] catches both. *)
Inductive exn :=
| ValueError (msg : pystr)
| OtherError (msg : pystr).

Definition exn_str (e : exn) : pystr :=
  match e with ValueError msg | OtherError msg => msg end.

Definition is_surrogate (c : N) : bool := (0xD800 <=? c) && (c <=? 0xDFFF).

Definition decimal (n : nat) : pystr :=
  py (DecimalString.NilZero.string_of_uint (Nat.to_uint n)).

Definition hexadecimal (c : N) : pystr :=
  py (HexadecimalString.NilZero.string_of_uint (N.to_hex_uint c)).

Fixpoint first_surrogate (s : pystr) : option nat :=
  match s with
  | [] => None
  | c :: s' => if is_surrogate c then Some 0%nat else S <$> first_surrogate s'
  end.

Fixpoint surrogate_run (s : pystr) : nat :=
  match s with
  | [] => 0
  | c :: s' => if is_surrogate c then S (surrogate_run s') else 0
  end.

(** [str(e)] for the [UnicodeEncodeError] of [s.encode("utf-8")]: it names
    the first run of lone surrogates of [s]. *)
Definition unicode_encode_error (s : pystr) : pystr :=
  match first_surrogate s with
  | None => []
  | Some i =>
      let run := surrogate_run (drop i s) in
      py "'utf-8' codec can't encode character"
      ++ (if (run =? 1)%nat
          then py " '\u" ++ hexadecimal (nth i s 0) ++ py "' in position "
               ++ decimal i
          else py "s in position " ++ decimal i ++ py "-"
               ++ decimal (i + run - 1))
      ++ py ": surrogates not allowed"
  end.

(** [ZipInfo.__init__]: the name ends at its first NUL. *)
Fixpoint cut_at_nul (name : pystr) : pystr :=
  match name with
  | [] => []
  | c :: name' => if c =? 0 then [] else c :: cut_at_nul name'
  end.

(** [len(s.encode("utf-8"))] *)
Fixpoint utf8_length (s : pystr) : N :=
  match s with
  | [] => 0
  | c :: s' =>
      (if c <? 0x80 then 1 else if c <? 0x800 then 2
       else if c <? 0x10000 then 3 else 4) + utf8_length s'
  end.

(** [zf.writestr(name, data)] with two strings: the new archive, or the
    exception raised, in the order in which the library meets them:
    [data.encode("utf-8")], [zinfo.filename[-1]], the encoding of the name
    and the 16-bit length field of the header. *)
Definition writestr (zf : zipfile) (name data : pystr) : zipfile + exn :=
  if existsb is_surrogate data
  then inr (ValueError (unicode_encode_error data))
  else
    let filename := cut_at_nul name in
    if is_empty filename
    then inr (OtherError (py "string index out of range"))
    else if existsb is_surrogate filename
    then inr (ValueError (unicode_encode_error filename))
    else if 65535 <? utf8_length filename
    then inr (OtherError (py "ushort format requires 0 <= number <= 65535"))
    else inl (zf ++ [(filename, data)]).

Definition namelist (zf : zipfile) : list pystr := zf.*1.

(** The content of the last entry of a given name in a list of entries:
    what a variable that is assigned once for each entry of that name, in
    order, holds in the end. *)
Fixpoint getinfo (zf : zipfile) (name : pystr) : option pystr :=
  match zf with
  | [] => None
  | (n, d) :: zf' =>
      match getinfo zf' name with
      | Some d' => Some d'
      | None => if bool_decide (n = name) then Some d else None
      end
  end.

(** What the page shows, in the order of the calls. *)
Inductive ui_event :=
| SidebarWarning (msg : pystr)
| StError (msg : pystr)
| StWarning (msg : pystr)
| StSubheader (msg : pystr)
| StHtml (doc : pystr)
| StDownloadButton (data : zipfile) (file_name : pystr).

Definition FILE_MARKER : pystr := py "### FILE: ".

(** One pass of the loop body shared by the preview loop and the three
    loops of [create_zip_file]: the blank test, then the [try] block up to
    the stripped [file_content], or the [ValueError] of the unpacking with
    the text of its warning. *)
Inductive section_outcome :=
| Blank
| Parsed (file_name file_content : pystr)
| BadFormat (warning : pystr).

Definition bad_format_warning (section : pystr) : pystr :=
  py "Unexpected format in section: " ++ take 30 section ++ py "...".

Definition parse_section (section : pystr) : section_outcome :=
  if is_empty (strip section) then Blank
  else match split_newline_once section with
       | [file_name; file_content] =>
           Parsed file_name (strip (strip_chars is_backtick file_content))
       | _ => BadFormat (bad_format_warning section)
       end.

(** *** Live preview (generate handler, HTML/CSS/JavaScript only) *)

Record preview_vars := PreviewVars {
  html_code : pystr;
  css_code : pystr;
  js_code : pystr
}.

Definition preview_assign (v : preview_vars) (file_name file_content : pystr)
  : preview_vars :=
  if bool_decide (strip file_name = py "index.html")
  then PreviewVars file_content (css_code v) (js_code v)
  else if bool_decide (strip file_name = py "styles.css")
  then PreviewVars (html_code v) file_content (js_code v)
  else if bool_decide (strip file_name = py "script.js")
  then PreviewVars (html_code v) (css_code v) file_content
  else v.

Fixpoint preview_loop (sections : list pystr) (v : preview_vars)
  : preview_vars * list ui_event :=
  match sections with
  | [] => (v, [])
  | section :: rest =>
      match parse_section section with
      | Blank => preview_loop rest v
      | Parsed file_name file_content =>
          preview_loop rest (preview_assign v file_name file_content)
      | BadFormat w =>
          let '(v', evs) := preview_loop rest v in (v', StWarning w :: evs)
      end
  end.

Definition dq : pystr := [0x22].

Definition complete_html (v : preview_vars) : pystr :=
  py "
<!DOCTYPE html>
<html lang=" ++ dq ++ py "en" ++ dq ++ py ">
<head>
    <meta charset=" ++ dq ++ py "UTF-8" ++ dq ++ py ">
    <meta name=" ++ dq ++ py "viewport" ++ dq ++ py " content=" ++ dq
  ++ py "width=device-width, initial-scale=1.0" ++ dq ++ py ">
    <title>Live Preview</title>
    <style>
    " ++ css_code v ++ py "
    </style>
</head>
<body>
    " ++ html_code v ++ py "
    <script>
    " ++ js_code v ++ py "
    </script>
</body>
</html>
                            ".

Definition preview_missing_warning : pystr :=
  py "Unable to extract HTML, CSS, and JS for live preview. Please ensure the generated code includes proper file markers.".

(** Lines 192-249: the variables start empty, the loop runs over the
    pieces of the response, and the document is shown when the three
    variables are all non-empty. *)
Definition live_preview (generated_code : pystr) : list ui_event :=
  let '(v, evs) :=
    preview_loop (split FILE_MARKER generated_code) (PreviewVars [] [] []) in
  if negb (is_empty (html_code v)) && negb (is_empty (css_code v))
     && negb (is_empty (js_code v))
  then evs ++ [StSubheader (py "Live Preview"); StHtml (complete_html v)]
  else evs ++ [StWarning preview_missing_warning].

(** *** create_zip_file *)

(** The section loop: the archive, the warnings shown, and the exception
    that left the loop, if any.  A [ValueError] out of [writestr] is caught
    by the [except ValueError] of the loop body like the one of the
    unpacking; any other exception ends the loop. *)
Fixpoint write_sections (sections : list pystr) (zf : zipfile)
  : zipfile * list ui_event * option exn :=
  match sections with
  | [] => (zf, [], None)
  | section :: rest =>
      match parse_section section with
      | Blank => write_sections rest zf
      | Parsed file_name file_content =>
          let file_path := strip file_name in
          match writestr zf file_path file_content with
          | inl zf' => write_sections rest zf'
          | inr (ValueError _) =>
              let '(zf', evs, raised) := write_sections rest zf in
              (zf', StWarning (bad_format_warning section) :: evs, raised)
          | inr (OtherError msg) => (zf, [], Some (OtherError msg))
          end
      | BadFormat w =>
          let '(zf', evs, raised) := write_sections rest zf in
          (zf', StWarning w :: evs, raised)
      end
  end.

(** The loop over [required_files]; [namelist] is read afresh each turn,
    and an exception out of [writestr] leaves the loop. *)
Fixpoint add_missing (required_files : list pystr) (content : pystr → pystr)
    (zf : zipfile) : zipfile * option exn :=
  match required_files with
  | [] => (zf, None)
  | req_file :: rest =>
      if bool_decide (req_file ∈ namelist zf) then add_missing rest content zf
      else match writestr zf req_file (content req_file) with
           | inl zf' => add_missing rest content zf'
           | inr e => (zf, Some e)
           end
  end.

Definition slash_comment (req_file : pystr) : pystr :=
  py "// " ++ req_file ++ py " content missing".

Definition block_comment (req_file : pystr) : pystr :=
  py "/* " ++ req_file ++ py " content missing */".

Definition readme_content (fw : framework) : pystr :=
  py "
# Generated " ++ framework_name fw ++ py " Frontend

## Setup Instructions

### React:
1. Navigate to the project directory.
2. Run `npm install` to install dependencies.
3. Run `npm start` to start the development server.

### HTML/CSS/JavaScript:
1. Open `index.html` in your preferred web browser.

### Angular:
1. Navigate to the project directory.
2. Run `npm install` to install dependencies.
3. Run `ng serve` to start the development server.

## Deployment

The project is ready to be deployed on platforms like Netlify, Vercel, or GitHub Pages.
            ".

(** Line 347: the message of the [except Exception] handler. *)
Definition zip_error (e : exn) : ui_event :=
  StError (py "Error while creating ZIP file: " ++ exn_str e).

(** One branch of [create_zip_file]: the section loop, then, unless an
    exception left it, the loop over the branch's [required_files]. *)
Definition write_branch (code : pystr) (required_files : list pystr)
    (content : pystr → pystr) : zipfile * list ui_event * option exn :=
  let '(zf, evs, raised) := write_sections (split FILE_MARKER code) [] in
  match raised with
  | Some e => (zf, evs, Some e)
  | None =>
      let '(zf', raised') := add_missing required_files content zf in
      (zf', evs, raised')
  end.

(** Lines 254-350.  An exception that reaches [except Exception] is shown
    with [st.error] and ends the writing; the buffer is returned with the
    members written until then.  The function returns the members of the
    buffer and what it showed. *)
Definition create_zip_file (code : pystr) (fw : framework)
  : zipfile * list ui_event :=
  let '(zf, evs, raised) :=
    match fw with
    | React =>
        write_branch code
          [py "public/index.html"; py "src/App.js"; py "src/index.js";
           py "package.json"]
          slash_comment
    | HtmlCssJs =>
        write_branch code [py "index.html"; py "styles.css"; py "script.js"]
          block_comment
    | Angular =>
        write_branch code
          [py "angular.json"; py "src/app/app.module.ts";
           py "src/app/app.component.ts"; py "src/app/app.component.html"]
          slash_comment
    end in
  match raised with
  | Some e => (zf, evs ++ [zip_error e])
  | None =>
      match writestr zf (py "README.md") (readme_content fw) with
      | inl zf' => (zf', evs)
      | inr e => (zf, evs ++ [zip_error e])
      end
  end.

(** *** Session state and the two button handlers *)

(** Lines 29-33, run at the top of every script run. *)
Definition init_session_state (ss : gmap string pystr) : gmap string pystr :=
  let ss := match ss !! "generated_code"%string with
            | Some _ => ss
            | None => <["generated_code"%string := []]> ss
            end in
  match ss !! "fine_tuned_code"%string with
  | Some _ => ss
  | None => <["fine_tuned_code"%string := []]> ss
  end.

(** [st.session_state.<key>], read after the initialisation above. *)
Definition attr (ss : gmap string pystr) (key : string) : pystr :=
  default [] (ss !! key).

(** The answer of [client.chat.completions.create(...)] as the handler
    sees it: the message content, or an exception with its text. *)
Inductive completion :=
| ApiContent (content : pystr)
| ApiRaises (e : pystr).

(** A handler either finishes with a result or asks the completion service
    and goes on with its answer.  The request carries the three values the
    prompt template is filled with; the fixed text of the template is read
    by no property below and is not reproduced. *)
Inductive handler (A : Type) : Type :=
| Done (a : A)
| Complete (fw : framework) (requirements_prompt style_theme : pystr)
    (k : completion → handler A).
Arguments Done {A} a.
Arguments Complete {A} fw requirements_prompt style_theme k.

(** Run a handler against a completion service, counting the requests. *)
Fixpoint run {A} (service : framework → pystr → pystr → completion)
    (h : handler A) : A * nat :=
  match h with
  | Done a => (a, 0%nat)
  | Complete fw req style k =>
      let '(a, n) := run service (k (service fw req style)) in (a, S n)
  end.

(** Lines 61-251, the body of [if st.sidebar.button("Generate Code")]. *)
Definition on_generate (ss : gmap string pystr) (fw : framework)
    (requirements_prompt style_theme : pystr)
  : handler (gmap string pystr * list ui_event) :=
  if is_empty (strip requirements_prompt)
  then Done (ss, [SidebarWarning
                    (py "Please enter the website requirements prompt.")])
  else
    Complete fw requirements_prompt style_theme (λ answer,
      match answer with
      | ApiRaises e =>
          Done (ss, [StError (py "An error occurred while generating code: "
                              ++ e)])
      | ApiContent content =>
          let generated_code := strip content in
          if is_empty generated_code
          then Done (ss, [StError
                 (py "The API returned an empty response. Please try again.")])
          else
            let ss := <["generated_code"%string := generated_code]> ss in
            let ss := <["fine_tuned_code"%string := generated_code]> ss in
            match fw with
            | HtmlCssJs => Done (ss, live_preview generated_code)
            | _ => Done (ss, [])
            end
      end).

(** Lines 353-363, the body of [if st.sidebar.button("Download ZIP")]. *)
Definition on_download (ss : gmap string pystr) (fw : framework)
  : list ui_event :=
  if negb (is_empty (attr ss "fine_tuned_code"))
  then
    let '(zip_buffer, evs) := create_zip_file (attr ss "generated_code") fw in
    evs ++ [StDownloadButton zip_buffer
              (lower (framework_name fw) ++ py "_code_base.zip")]
  else [SidebarWarning (py "Generate the code first before downloading.")].

(** One run of the script: at most one of the two buttons reports a click. *)
Inductive click := ClickGenerate | ClickDownload | NoClick.

Definition script (ss : gmap string pystr) (fw : framework)
    (requirements_prompt style_theme : pystr) (c : click)
  : handler (gmap string pystr * list ui_event) :=
  let ss := init_session_state ss in
  match c with
  | ClickGenerate => on_generate ss fw requirements_prompt style_theme
  | ClickDownload => Done (ss, on_download ss fw)
  | NoClick => Done (ss, [])
  end.

(** The session states a browser session can be in: the empty state of a
    new session, and whatever a run of the script leaves behind. *)
Inductive reachable : gmap string pystr → Prop :=
| reachable_new : reachable ∅
| reachable_run ss fw req style c service :
    reachable ss →
    reachable (run service (script ss fw req style c)).1.1.

(** ** Derived notions used in the statements *)

(** What the loop body, shared by the preview loop and the archive loop,
    extracts from a list of fragments: for every fragment read as a file,
    the pair of [file_name.strip()] and the stripped [file_content], in
    order.  The preview loop assigns from these pairs and the archive loop
    hands them to [writestr]. *)
Fixpoint parsed_sections (sections : list pystr) : zipfile :=
  match sections with
  | [] => []
  | section :: rest =>
      match parse_section section with
      | Parsed file_name file_content =>
          (strip file_name, file_content) :: parsed_sections rest
      | _ => parsed_sections rest
      end
  end.

(** The extraction result of a response. *)
Definition extract_sections (code : pystr) : zipfile :=
  parsed_sections (split FILE_MARKER code).

(** The extraction result of the preview path: the three variables after
    the loop. *)
Definition preview_extract (code : pystr) : preview_vars :=
  (preview_loop (split FILE_MARKER code) (PreviewVars [] [] [])).1.

(** The [required_files] list and the placeholder text of each branch of
    [create_zip_file]. *)
Definition required_files (fw : framework) : list pystr :=
  match fw with
  | React => [py "public/index.html"; py "src/App.js"; py "src/index.js";
              py "package.json"]
  | HtmlCssJs => [py "index.html"; py "styles.css"; py "script.js"]
  | Angular => [py "angular.json"; py "src/app/app.module.ts";
                py "src/app/app.component.ts"; py "src/app/app.component.html"]
  end.

Definition placeholder (fw : framework) (req_file : pystr) : pystr :=
  match fw with
  | HtmlCssJs => block_comment req_file
  | React | Angular => slash_comment req_file
  end.

(** The warnings of the unpacking, for a list of fragments. *)
Fixpoint format_warnings (sections : list pystr) : list ui_event :=
  match sections with
  | [] => []
  | section :: rest =>
      match parse_section section with
      | BadFormat w => StWarning w :: format_warnings rest
      | _ => format_warnings rest
      end
  end.

(** The text before the first marker (the whole text if there is none). *)
Definition preamble (code : pystr) : pystr :=
  match find FILE_MARKER code with
  | Some i => take i code
  | None => code
  end.

(** An entry that [writestr] stores as it is: the name is not empty, has
    no NUL and at most 65535 bytes in UTF-8, and neither the name nor the
    data holds a lone surrogate. *)
Definition writable (entry : pystr * pystr) : bool :=
  negb (is_empty entry.1) && negb (existsb (N.eqb 0) entry.1)
  && negb (existsb is_surrogate entry.1) && negb (existsb is_surrogate entry.2)
  && (utf8_length entry.1 <=? 65535).

(** The section loop of [create_zip_file] on a response: the members it
    writes, the warnings it shows, and the exception that ends it. *)
Definition loop_members (code : pystr) : zipfile :=
  (write_sections (split FILE_MARKER code) []).1.1.

Definition loop_events (code : pystr) : list ui_event :=
  (write_sections (split FILE_MARKER code) []).1.2.

Definition loop_raised (code : pystr) : option exn :=
  (write_sections (split FILE_MARKER code) []).2.

(** Storing a fresh response: lines 175-176. *)
Definition store (ss : gmap string pystr) (generated_code : pystr)
  : gmap string pystr :=
  <["fine_tuned_code"%string := generated_code]>
    (<["generated_code"%string := generated_code]> ss).

(** A response made of sections only: each one is the marker, a header
    line, a newline and a body. *)
Fixpoint render (sections : list (pystr * pystr)) : pystr :=
  match sections with
  | [] => []
  | (header, body) :: rest =>
      FILE_MARKER ++ (header ++ newline :: body) ++ render rest
  end.

(** Such a section is well formed when its header is one line, its text
    is not blank, and the marker occurs nowhere in the text, not even
    astride the marker that follows. *)
Definition well_formed_section (hb : pystr * pystr) : Prop :=
  let text := hb.1 ++ newline :: hb.2 in
  (newline ∉ hb.1)
  ∧ is_empty (strip text) = false
  ∧ find FILE_MARKER (text ++ FILE_MARKER) = Some (length text).

(** ** Concrete responses *)

(** Scenario A of the specification. *)
Definition scenario_A : pystr := py "### FILE: index.html
```html
<h1>Hi</h1>
```
### FILE: styles.css
```css
h1{color:red;}
```
### FILE: script.js
```javascript
console.log(1);
```".

(** A response without any marker, made of a first line and a body. *)
Definition no_marker_response : pystr := py "index.html
<p>hi</p>".

(** A response in which a marker is followed at once by another one. *)
Definition empty_fragment_response : pystr := py "### FILE: ### FILE: a
b".

(** A response whose second header line is cut short. *)
Definition cut_header_response : pystr := py "### FILE: index.html
<p>hi</p>
### FILE: styles.css### FILE: script.js
alert(1);".

(** The three preview files, the stylesheet being empty. *)
Definition empty_styles_response : pystr := py "### FILE: index.html
<p>hi</p>
### FILE: styles.css

### FILE: script.js
alert(1);".

(** The same path given twice. *)
Definition duplicate_response : pystr := py "### FILE: index.html
first
### FILE: index.html
second".

(** Only the page itself. *)
Definition only_index_response : pystr := py "### FILE: index.html
<p>hi</p>".

(** A response that opens with a sentence before its first marker. *)
Definition chatty_response : pystr := py "Sure, here is the code: ### FILE: index.html
<p>hi</p>".

(** A response whose only header line is empty. *)
Definition blank_header_response : pystr := py "### FILE: 
body{}".

(** A response that brings a README of its own. *)
Definition readme_response : pystr := py "### FILE: README.md
hello".

(** An empty header line, then a header cut short. *)
Definition aborted_response : pystr := py "### FILE: 
body{}
### FILE: tail-without-newline".

(** A completion service that answers with blanks only. *)
Definition blank_service (_ : framework) (_ _ : pystr) : completion :=
  ApiContent (py "  
 ").

(** A completion service that always answers with Scenario A. *)
Definition scenario_A_service (_ : framework) (_ _ : pystr) : completion :=
  ApiContent scenario_A.

(** ** The prompt *)

(** Lines 68-160: the f-string [prompt], cut at its six placeholders.  The
    seven fixed texts follow the source character for character (the one
    character outside ASCII, the apostrophe U+2019, is given by its code
    point). *)
Definition prompt_text_0 : pystr :=
  py "
Generate ".

Definition prompt_text_1 : pystr :=
  py " code for a website based on the following user requirement: ".

Definition prompt_text_2 : pystr :=
  py ". Ensure that the website includes all relevant aspects of a modern design that may not have been explicitly mentioned. Follow best practices for each framework, while fulfilling the following requirements:

### General Requirements (for all frameworks):
1. **Responsive Design**: Ensure the layout is fully responsive, adapting seamlessly to different screen sizes, including mobile, tablet, and desktop views.
2. **Navigation**: Implement a clean, user-friendly navigation menu accessible from all pages, with smooth transitions where appropriate.
3. **UI Components**: Include essential components like a hero section, service/product cards, testimonial sections, a contact form, and a footer. Ensure the code structure is modular and extendable.
4. **Performance Optimization**: Optimize for loading speed using techniques like image optimization, CSS and JS minification, lazy loading for images, and efficient caching strategies.
5. **Accessibility**: Follow web accessibility standards (WCAG 2.1). Use semantic HTML, ARIA attributes, and ensure keyboard navigability and screen reader compatibility.
6. **Cross-Browser Compatibility**: Ensure the code works flawlessly across modern browsers such as Chrome, Firefox, Safari, and Edge.
7. **SEO Optimization**: Follow SEO best practices, including meta tags, structured data (schema.org), proper heading hierarchy, and meaningful alt text for images.
8. **Modular Code Structure**: Generate code separated into appropriate modules or components for the chosen framework (React components, Angular modules, or plain HTML/CSS/JS files).
9. **Styling**: Apply the style and theme as provided in ".

Definition prompt_text_3 : pystr :=
  py ". Ensure consistent design, typography, and spacing. Include hover states, transitions, and animations as appropriate.
10. **Code Organization**: Ensure the code is clean, well-commented, and organized according to best practices. Use separate files for HTML, CSS, and JS (or components/modules for React and Angular).
11. **Deployment Readiness**: Make sure the generated code is ready for deployment on platforms like Netlify, Vercel, or GitHub Pages. Provide any necessary build scripts for frameworks requiring a build step (React, Angular).

### Framework-Specific Instructions:

#### If using **HTML/CSS/JavaScript**:
- Use vanilla HTML, CSS, and JavaScript.
- Organize the project in a modular way, separating concerns (e.g., CSS in a `styles.css` file, JavaScript in a `script.js` file).
- Include a mobile-first design approach.
- **Output Format**:
    ### FILE: index.html
    ```html
    <!-- HTML code here -->
    ```
    ### FILE: styles.css
    ```css
    /* CSS code here */
    ```
    ### FILE: script.js
    ```javascript
    // JavaScript code here
    ```

#### If using **React**:
- Use functional components and React hooks (e.g., `useState`, `useEffect`).
- Create modular components for each part of the website (e.g., Navbar, Hero, ContactForm).
- Use `React Router` for handling navigation between pages if needed.
- Ensure the project structure follows best practices for React, separating concerns and keeping styles modular (e.g., using CSS modules or Styled Components).
- **Output Format**:
    ### FILE: src/App.js
    ```javascript
    // React App.js code here
    ```
    ### FILE: src/index.js
    ```javascript
    // React index.js code here
    ```
    ### FILE: src/components/Navbar.js
    ```javascript
    // Navbar component code here
    ```
    ### FILE: src/styles.css
    ```css
    /* CSS code here */
    ```
    ### FILE: public/index.html
    ```html
    <!-- HTML code here -->
    ```

#### If using **Angular**:
- Use Angular modules and components for organizing the application.
- Implement routing using the Angular Router.
- Ensure that the code is following Angular" ++ [0x2019] ++ py "s best practices, including service-based architecture and use of TypeScript for type safety.
- Use Angular's two-way data binding and dependency injection for managing state and services.
- **Output Format**:
    ### FILE: src/app/app.component.html
    ```html
    <!-- Angular component HTML here -->
    ```
    ### FILE: src/app/app.component.ts
    ```typescript
    // Angular component TypeScript here
    ```
    ### FILE: src/app/app.module.ts
    ```typescript
    // Angular module TypeScript here
    ```
    ### FILE: src/styles.css
    ```css
    /* CSS code here */
    ```
    ### FILE: angular.json
    ```json
    // Angular configuration here
    ```

Please generate only the code no other text, without any general response or code explanation. Separate the code into different modules according to the respective ".

Definition prompt_text_4 : pystr :=
  py " and strictly follow ".

Definition prompt_text_5 : pystr :=
  py ". The code should be directly ready for download in corresponding files based on the structure provided. Additionally, ensure that the code can be run locally and provide a preview within the Streamlit UI where applicable.
Please generate only the code without any general response or no code explanation in any where in the codebase no note , no extra statements other than codebase no here is the text,strictly follow ".

Definition prompt_text_6 : pystr :=
  py "
".

Definition prompt (fw : framework) (requirements_prompt style_theme : pystr)
  : pystr :=
  prompt_text_0 ++ framework_name fw ++ prompt_text_1 ++ requirements_prompt
  ++ prompt_text_2 ++ style_theme ++ prompt_text_3 ++ framework_name fw
  ++ prompt_text_4 ++ style_theme ++ prompt_text_5 ++ style_theme
  ++ prompt_text_6.

(** ** Further notions *)

(** [sep.join(pieces)] *)
Fixpoint join (sep : pystr) (pieces : list pystr) : pystr :=
  match pieces with
  | [] => []
  | p :: rest =>
      match rest with
      | [] => p
      | _ :: _ => p ++ sep ++ join sep rest
      end
  end.

(** [x in s] for strings: [x] is a contiguous slice of [s]. *)
Definition slice_of (x s : pystr) : Prop := ∃ l1 l2, s = l1 ++ x ++ l2.

(** A completion service that fails. *)
Definition failing_service (_ : framework) (_ _ : pystr) : completion :=
  ApiRaises (py "timeout").

(** Two literal names held by the same string are the same literal. *)
Ltac clash :=
  exfalso;
  match goal with
  | H1 : ?x = py _, H2 : ?x = py _ |- _ =>
      rewrite H1 in H2; vm_compute in H2; discriminate H2
  end.

(** ** Strings: splitting *)

Example split_demo :
  split (py "--") (py "a--b----c-") = [py "a"; py "b"; []; py "c-"].
Proof. vm_compute. reflexivity. Qed.

Example strip_demo :
  strip (strip_chars is_backtick (py "```html
<h1>Hi</h1>
```")) = py "html
<h1>Hi</h1>".
Proof. vm_compute. reflexivity. Qed.


Section Splitting.
Variable sep : pystr.

Lemma split_go_skip (k : nat) (s : pystr) :
  split_go sep k s = split_go sep 0 (drop k s).
Proof.
  revert k. induction s as [|c s IH]; intros [|k]; simpl; try reflexivity.
  rewrite IH. reflexivity.
Qed.

Lemma find_None_cons (c : N) (s : pystr) :
  find sep (c :: s) = None →
  starts_with sep (c :: s) = false ∧ find sep s = None.
Proof.
  cbn [find]. destruct (starts_with sep (c :: s)); [discriminate|].
  destruct (find sep s); [discriminate|]. auto.
Qed.

Lemma split_go_no_occurrence (s : pystr) :
  find sep s = None → split_go sep 0 s = (s, []).
Proof.
  induction s as [|c s IH]; intros Hf; [reflexivity|].
  apply find_None_cons in Hf as [Hsw Hf].
  cbn [split_go]. rewrite Hsw, (IH Hf). reflexivity.
Qed.

(** Without an occurrence of the separator, [split] returns the string. *)
Lemma split_no_occurrence (s : pystr) :
  find sep s = None → split sep s = [s].
Proof.
  intros Hf. unfold split. rewrite (split_go_no_occurrence _ Hf). reflexivity.
Qed.

(** The first piece is the text before the leftmost occurrence. *)
Lemma split_first_piece (s : pystr) :
  (split_go sep 0 s).1 =
    match find sep s with Some i => take i s | None => s end.
Proof.
  induction s as [|c s IH].
  - cbn. destruct (starts_with sep []); reflexivity.
  - cbn [split_go find].
    destruct (starts_with sep (c :: s)) eqn:Hsw.
    + destruct (split_go sep (length sep - 1) s). reflexivity.
    + destruct (split_go sep 0 s) as [p ps]. cbn in IH |- *.
      rewrite IH. destruct (find sep s); reflexivity.
Qed.

Lemma split_cons (s : pystr) :
  split sep s = (split_go sep 0 s).1 :: (split_go sep 0 s).2.
Proof. unfold split. destruct (split_go sep 0 s). reflexivity. Qed.
End Splitting.

(** ** Strings: the cut at the first newline *)

Lemma split_newline_once_absent (s : pystr) :
  newline ∉ s → split_newline_once s = [s].
Proof.
  induction s as [|c s IH]; intros Hn; [reflexivity|].
  cbn [split_newline_once].
  destruct (N.eqb_spec c newline) as [->|Hc].
  - exfalso. apply Hn. left.
  - rewrite IH; [reflexivity|]. intros Hin. apply Hn. by right.
Qed.

Lemma split_newline_once_present (s : pystr) :
  newline ∈ s →
  ∃ a b, split_newline_once s = [a; b] ∧ s = a ++ newline :: b ∧ newline ∉ a.
Proof.
  induction s as [|c s IH]; intros Hin.
  - by apply elem_of_nil in Hin.
  - cbn [split_newline_once].
    destruct (N.eqb_spec c newline) as [->|Hc].
    + exists [], s. split_and!; [done|done|]. apply not_elem_of_nil.
    + apply elem_of_cons in Hin as [Heq|Hin]; [congruence|].
      destruct (IH Hin) as (a & b & -> & -> & Ha).
      exists (c :: a), b. split_and!; [done|done|].
      intros [?|?]%elem_of_cons; [congruence|done].
Qed.

(** ** The section loops *)

Lemma extract_sections_spec (code : pystr) :
  extract_sections code = parsed_sections (split FILE_MARKER code).
Proof. reflexivity. Qed.

(** *** The archive writer *)

Lemma cut_at_nul_id (name : pystr) :
  existsb (N.eqb 0) name = false → cut_at_nul name = name.
Proof.
  induction name as [|c name IH]; cbn [existsb cut_at_nul]; [done|].
  rewrite (N.eqb_sym 0 c). destruct (c =? 0); cbn [orb]; [done|].
  intros H. by rewrite IH.
Qed.

(** A writable entry is stored as it is. *)
Lemma writestr_writable (zf : zipfile) (p c : pystr) :
  writable (p, c) = true → writestr zf p c = inl (zf ++ [(p, c)]).
Proof.
  unfold writable. cbn [fst snd].
  intros ((((Hne & Hnul)%andb_true_iff & Hsp)%andb_true_iff
           & Hsc)%andb_true_iff & Hlen)%andb_true_iff.
  apply negb_true_iff in Hne, Hnul, Hsp, Hsc.
  unfold writestr. rewrite Hsc, (cut_at_nul_id _ Hnul), Hne, Hsp.
  apply N.leb_le in Hlen.
  destruct (N.ltb_spec 65535 (utf8_length p)); [lia|done].
Qed.

(** What [writestr] does never depends on the members already there. *)
Lemma writestr_from (zf : zipfile) (p c : pystr) :
  writestr zf p c
  = match writestr [] p c with
    | inl m => inl (zf ++ m)
    | inr e => inr e
    end.
Proof. unfold writestr. by repeat case_match. Qed.

Lemma write_sections_from (sections : list pystr) (zf : zipfile) :
  write_sections sections zf
  = (zf ++ (write_sections sections []).1.1,
     (write_sections sections []).1.2,
     (write_sections sections []).2).
Proof.
  revert zf.
  induction sections as [|s rest IH]; intros zf; cbn [write_sections].
  - cbn. by rewrite app_nil_r.
  - destruct (parse_section s) as [|fn fc|w].
    + apply IH.
    + rewrite (writestr_from zf).
      destruct (writestr [] (strip fn) fc) as [m|[msg|msg]].
      * rewrite (IH (zf ++ m)), (IH m). cbn. by rewrite app_assoc.
      * rewrite (IH zf).
        by destruct (write_sections rest []) as [[? ?] ?].
      * cbn. by rewrite app_nil_r.
    + rewrite (IH zf). by destruct (write_sections rest []) as [[? ?] ?].
Qed.

(** The loop over two lists in a row. *)
Lemma write_sections_app (l1 l2 : list pystr) (zf : zipfile) :
  write_sections (l1 ++ l2) zf
  = match (write_sections l1 zf).2 with
    | Some e => write_sections l1 zf
    | None =>
        ((write_sections l2 (write_sections l1 zf).1.1).1.1,
         (write_sections l1 zf).1.2
         ++ (write_sections l2 (write_sections l1 zf).1.1).1.2,
         (write_sections l2 (write_sections l1 zf).1.1).2)
    end.
Proof.
  revert zf. induction l1 as [|s l1 IH]; intros zf; cbn [app write_sections].
  - cbn. by destruct (write_sections l2 zf) as [[? ?] ?].
  - destruct (parse_section s) as [|fn fc|w].
    + apply IH.
    + destruct (writestr zf (strip fn) fc) as [m|[msg|msg]].
      * apply IH.
      * rewrite (IH zf).
        destruct (write_sections l1 zf) as [[zf1 e1] [e|]]; [done|].
        cbn. by destruct (write_sections l2 zf1) as [[? ?] ?].
      * done.
    + rewrite (IH zf).
      destruct (write_sections l1 zf) as [[zf1 e1] [e|]]; [done|].
      cbn. by destruct (write_sections l2 zf1) as [[? ?] ?].
Qed.

(** When every extracted entry is writable, the loop writes them all and
    shows the warnings of the unpacking only. *)
Lemma write_sections_writable (sections : list pystr) (zf : zipfile) :
  forallb writable (parsed_sections sections) = true →
  write_sections sections zf
  = (zf ++ parsed_sections sections, format_warnings sections, None).
Proof.
  revert zf.
  induction sections as [|s rest IH]; intros zf;
    cbn [write_sections parsed_sections format_warnings].
  - by rewrite app_nil_r.
  - destruct (parse_section s) as [|fn fc|w]; [apply IH| |].
    + cbn [forallb]. intros [Hw Hrest]%andb_true_iff.
      rewrite (writestr_writable _ _ _ Hw), (IH _ Hrest).
      by rewrite <- app_assoc.
    + intros Hrest. by rewrite (IH _ Hrest).
Qed.

Lemma preview_loop_warnings (sections : list pystr) (v : preview_vars) :
  (preview_loop sections v).2 = format_warnings sections.
Proof.
  revert v. induction sections as [|s rest IH]; intros v; cbn; [done|].
  destruct (parse_section s); [apply IH|apply IH|].
  specialize (IH v). destruct (preview_loop rest v). cbn in *. by rewrite IH.
Qed.

Lemma parsed_sections_app (l1 l2 : list pystr) :
  parsed_sections (l1 ++ l2) = parsed_sections l1 ++ parsed_sections l2.
Proof.
  induction l1 as [|s l1 IH]; cbn; [done|].
  destruct (parse_section s); cbn; by rewrite IH.
Qed.

Lemma format_warnings_app (l1 l2 : list pystr) :
  format_warnings (l1 ++ l2) = format_warnings l1 ++ format_warnings l2.
Proof.
  induction l1 as [|s l1 IH]; cbn; [done|].
  destruct (parse_section s); cbn; by rewrite IH.
Qed.

(** ** The last entry of a name *)

Lemma getinfo_app (zf1 zf2 : zipfile) (name : pystr) :
  getinfo (zf1 ++ zf2) name
  = match getinfo zf2 name with
    | Some d => Some d
    | None => getinfo zf1 name
    end.
Proof.
  induction zf1 as [|[n d] zf1 IH]; cbn.
  - by destruct (getinfo zf2 name).
  - rewrite IH. by destruct (getinfo zf2 name).
Qed.

Lemma getinfo_None (zf : zipfile) (name : pystr) :
  getinfo zf name = None ↔ name ∉ namelist zf.
Proof.
  unfold namelist. induction zf as [|[n d] zf IH]; cbn.
  - split; [intros _; apply not_elem_of_nil|done].
  - rewrite not_elem_of_cons, <- IH.
    destruct (getinfo zf name) eqn:Hg.
    + split; [done|]. intros [_ Hn]. discriminate Hn.
    + case_bool_decide as Hd.
      * split; [done|]. intros [Hne _]. by destruct Hne.
      * split; [|done]. intros _. split; [congruence|done].
Qed.

(** The member written last under a name is the one a reader gets. *)
Lemma getinfo_last (zf1 zf2 : zipfile) (name data : pystr) :
  name ∉ namelist zf2 →
  getinfo (zf1 ++ (name, data) :: zf2) name = Some data.
Proof.
  intros Hn. apply getinfo_None in Hn.
  rewrite getinfo_app. cbn. rewrite Hn. by rewrite bool_decide_true.
Qed.

(** ** The preview variables are the last sections of their names *)

Lemma preview_assign_html (v : preview_vars) (fn fc : pystr) :
  html_code (preview_assign v fn fc)
  = if bool_decide (strip fn = py "index.html") then fc else html_code v.
Proof. unfold preview_assign. repeat case_bool_decide; done. Qed.

Lemma preview_assign_css (v : preview_vars) (fn fc : pystr) :
  css_code (preview_assign v fn fc)
  = if bool_decide (strip fn = py "styles.css") then fc else css_code v.
Proof.
  unfold preview_assign. repeat case_bool_decide; try done; clash.
Qed.

Lemma preview_assign_js (v : preview_vars) (fn fc : pystr) :
  js_code (preview_assign v fn fc)
  = if bool_decide (strip fn = py "script.js") then fc else js_code v.
Proof.
  unfold preview_assign. repeat case_bool_decide; try done; clash.
Qed.

Lemma preview_loop_slots (sections : list pystr) (v : preview_vars) :
  let v' := (preview_loop sections v).1 in
  html_code v'
  = default (html_code v) (getinfo (parsed_sections sections) (py "index.html"))
  ∧ css_code v'
    = default (css_code v) (getinfo (parsed_sections sections) (py "styles.css"))
  ∧ js_code v'
    = default (js_code v) (getinfo (parsed_sections sections) (py "script.js")).
Proof.
  revert v. induction sections as [|s rest IH]; intros v; cbn; [done|].
  destruct (parse_section s) as [|fn fc|w].
  - apply IH.
  - destruct (IH (preview_assign v fn fc)) as (Hh & Hc & Hj).
    cbn in Hh, Hc, Hj. rewrite Hh, Hc, Hj.
    rewrite preview_assign_html, preview_assign_css, preview_assign_js.
    cbn [getinfo].
    destruct (getinfo (parsed_sections rest) (py "index.html")),
      (getinfo (parsed_sections rest) (py "styles.css")),
      (getinfo (parsed_sections rest) (py "script.js"));
      repeat case_bool_decide; try done; clash.
  - specialize (IH v). destruct (preview_loop rest v). apply IH.
Qed.

(** ** Placeholders for the required files *)

Lemma required_files_NoDup (fw : framework) : NoDup (required_files fw).
Proof. destruct fw; apply (bool_decide_unpack _); vm_compute; exact I. Qed.

Lemma required_files_not_readme (fw : framework) :
  py "README.md" ∉ required_files fw.
Proof. destruct fw; apply (bool_decide_unpack _); vm_compute; exact I. Qed.

Lemma filter_missing_snoc (zf : zipfile) (r d : pystr) (rest : list pystr) :
  r ∉ rest →
  filter (λ x, x ∉ namelist (zf ++ [(r, d)])) rest
  = filter (λ x, x ∉ namelist zf) rest.
Proof.
  induction rest as [|x rest IH]; intros Hr; [done|].
  apply not_elem_of_cons in Hr as [Hne Hr].
  rewrite !filter_cons, (IH Hr).
  assert (x ∉ namelist (zf ++ [(r, d)]) ↔ x ∉ namelist zf) as Hiff.
  { unfold namelist. rewrite fmap_app, elem_of_app. cbn.
    rewrite list_elem_of_singleton. intuition congruence. }
  destruct (decide (x ∉ namelist (zf ++ [(r, d)]))),
    (decide (x ∉ namelist zf)); tauto.
Qed.

Lemma add_missing_spec (req : list pystr) (content : pystr → pystr)
    (zf : zipfile) :
  NoDup req →
  forallb (λ r, writable (r, content r)) req = true →
  add_missing req content zf
  = (zf ++ ((λ r, (r, content r)) <$> filter (λ r, r ∉ namelist zf) req),
     None).
Proof.
  revert zf. induction req as [|r rest IH]; intros zf Hnd Hw.
  - cbn. by rewrite app_nil_r.
  - apply NoDup_cons in Hnd as [Hr Hnd]. cbn [forallb] in Hw.
    apply andb_true_iff in Hw as [Hwr Hw]. rewrite filter_cons.
    cbn [add_missing]. case_bool_decide as Hin.
    + rewrite (IH _ Hnd Hw). destruct (decide (r ∉ namelist zf)); [done|done].
    + rewrite (writestr_writable _ _ _ Hwr), (IH _ Hnd Hw).
      rewrite (filter_missing_snoc _ _ _ _ Hr).
      destruct (decide (r ∉ namelist zf)); [|done].
      cbn. by rewrite <- app_assoc.
Qed.

Lemma required_files_writable (fw : framework) :
  forallb (λ r, writable (r, placeholder fw r)) (required_files fw) = true.
Proof. destruct fw; vm_compute; reflexivity. Qed.

Lemma readme_writable (fw : framework) :
  writable (py "README.md", readme_content fw) = true.
Proof. destruct fw; vm_compute; reflexivity. Qed.

(** The three branches of [create_zip_file] differ only in the checklist
    and the placeholder text; the writes that follow the section loop
    never raise.  So the archive is what the section loop wrote, followed,
    unless an exception left the loop, by the placeholders of the required
    files that no member is named after and by the README. *)
Lemma create_zip_file_unfold (code : pystr) (fw : framework) :
  create_zip_file code fw
  = match loop_raised code with
    | Some e => (loop_members code, loop_events code ++ [zip_error e])
    | None =>
        (loop_members code
         ++ ((λ r, (r, placeholder fw r))
               <$> filter (λ r, r ∉ namelist (loop_members code))
                     (required_files fw))
         ++ [(py "README.md", readme_content fw)],
         loop_events code)
    end.
Proof.
  assert (create_zip_file code fw
          = let '(zf, evs, raised) :=
              write_branch code (required_files fw) (placeholder fw) in
            match raised with
            | Some e => (zf, evs ++ [zip_error e])
            | None =>
                match writestr zf (py "README.md") (readme_content fw) with
                | inl zf' => (zf', evs)
                | inr e => (zf, evs ++ [zip_error e])
                end
            end) as -> by (by destruct fw).
  unfold write_branch, loop_raised, loop_members, loop_events.
  destruct (write_sections (split FILE_MARKER code) []) as [[zf evs] [e|]];
    [done|].
  rewrite (add_missing_spec _ _ _ (required_files_NoDup fw)
             (required_files_writable fw)).
  rewrite (writestr_writable _ _ _ (readme_writable fw)). cbn [fst snd].
  by rewrite <- app_assoc.
Qed.

(** When every extracted entry is writable, the loop is not left early. *)
Lemma loop_writable (code : pystr) :
  forallb writable (extract_sections code) = true →
  loop_members code = extract_sections code
  ∧ loop_events code = format_warnings (split FILE_MARKER code)
  ∧ loop_raised code = None.
Proof.
  intros Hw. unfold loop_members, loop_events, loop_raised.
  by rewrite (write_sections_writable _ _ Hw).
Qed.

(** *** Splitting a text whose occurrences of the separator are known *)

Lemma starts_with_self (sep rest : pystr) : starts_with sep (sep ++ rest) = true.
Proof. induction sep as [|a sep IH]; cbn; [done|]. by rewrite N.eqb_refl. Qed.

Lemma starts_with_app_true (sep a b : pystr) :
  starts_with sep a = true → starts_with sep (a ++ b) = true.
Proof.
  revert a. induction sep as [|x sep IH]; intros [|c a]; cbn; try done.
  intros [-> H]%andb_true_iff. by rewrite (IH _ H).
Qed.

Lemma starts_with_app_false (sep a b : pystr) :
  (length sep ≤ length a)%nat →
  starts_with sep a = false → starts_with sep (a ++ b) = false.
Proof.
  revert a. induction sep as [|x sep IH]; intros [|c a]; cbn; try done.
  - lia.
  - intros Hlen. destruct (x =? c); [|done]. cbn. apply IH. lia.
Qed.

Lemma find_at_end_cons (sep : pystr) (c : N) (x : pystr) :
  find sep ((c :: x) ++ sep) = Some (length (c :: x)) →
  starts_with sep ((c :: x) ++ sep) = false
  ∧ find sep (x ++ sep) = Some (length x).
Proof.
  cbn [app find length]. destruct (starts_with sep (c :: x ++ sep)).
  - discriminate.
  - destruct (find sep (x ++ sep)) as [i|]; cbn; [|discriminate].
    intros [= ->]. done.
Qed.

(** The text up to the first occurrence is the first piece, and the rest
    is split in turn. *)
Lemma split_go_chunk (sep x rest : pystr) :
  sep ≠ [] →
  find sep (x ++ sep) = Some (length x) →
  split_go sep 0 (x ++ sep ++ rest) = (x, split sep rest).
Proof.
  intros Hsep. induction x as [|c x IH]; intros Hfind.
  - destruct sep as [|a sep']; [done|].
    pose proof (starts_with_self (a :: sep') rest) as Hs.
    cbn [app] in Hs |- *. cbn [split_go]. rewrite Hs.
    rewrite split_go_skip.
    replace (length (a :: sep') - 1)%nat with (length sep') by (cbn; lia).
    rewrite drop_app_length. rewrite split_cons.
    by destruct (split_go (a :: sep') 0 rest).
  - apply find_at_end_cons in Hfind as [Hsw Hfind].
    cbn [app split_go].
    assert (starts_with sep (c :: x ++ sep ++ rest) = false) as ->.
    { replace (c :: x ++ sep ++ rest) with (((c :: x) ++ sep) ++ rest)
        by (by rewrite <- app_assoc).
      apply starts_with_app_false; [|done]. rewrite length_app. lia. }
    by rewrite (IH Hfind).
Qed.

Lemma split_go_last (sep x : pystr) :
  find sep (x ++ sep) = Some (length x) → split_go sep 0 x = (x, []).
Proof.
  induction x as [|c x IH]; intros Hfind; [done|].
  apply find_at_end_cons in Hfind as [Hsw Hfind].
  cbn [split_go].
  destruct (starts_with sep (c :: x)) eqn:Hs.
  - apply (starts_with_app_true _ _ sep) in Hs. rewrite Hs in Hsw. discriminate.
  - by rewrite (IH Hfind).
Qed.

(** [split] obeys the defining equation of [str.split]: cut at the
    leftmost occurrence, then split what follows the separator. *)
Lemma split_unfold (sep s : pystr) :
  sep ≠ [] →
  split sep s
  = match find sep s with
    | None => [s]
    | Some i => take i s :: split sep (drop (i + length sep) s)
    end.
Proof.
  intros Hsep. induction s as [|c s IH].
  - by destruct sep.
  - unfold split at 1. cbn [split_go find].
    destruct (starts_with sep (c :: s)) eqn:Hs.
    + rewrite split_go_skip. destruct sep as [|a sep']; [done|].
      replace (length (a :: sep') - 1)%nat with (length sep') by (cbn; lia).
      cbn [length Nat.add drop take]. rewrite split_cons.
      by destruct (split_go (a :: sep') 0 (drop (length sep') s)).
    + unfold split in IH. destruct (split_go sep 0 s) as [p ps].
      destruct (find sep s) as [i|]; cbn; by injection IH as -> ->.
Qed.

Lemma split_newline_once_app (header body : pystr) :
  newline ∉ header →
  split_newline_once (header ++ newline :: body) = [header; body].
Proof.
  induction header as [|c h IH]; intros Hn; cbn.
  - done.
  - apply not_elem_of_cons in Hn as [Hc Hn].
    destruct (N.eqb_spec c newline) as [->|_]; [done|].
    by rewrite (IH Hn).
Qed.

(** *** Responses made of well-formed sections *)

Lemma split_go_render (sections : list (pystr * pystr)) (x : pystr) :
  Forall well_formed_section sections →
  find FILE_MARKER (x ++ FILE_MARKER) = Some (length x) →
  split_go FILE_MARKER 0 (x ++ render sections)
  = (x, (λ hb, hb.1 ++ newline :: hb.2) <$> sections).
Proof.
  intros Hwf. revert x.
  induction Hwf as [|[h b] rest (Hh & Hne & Hfind) Hwf IH]; intros x Hx.
  - cbn. rewrite app_nil_r. by apply split_go_last.
  - cbn [render fst snd] in *. rewrite split_go_chunk; [|done|done].
    rewrite split_cons. by rewrite (IH (h ++ newline :: b) Hfind).
Qed.

Lemma split_render (sections : list (pystr * pystr)) :
  Forall well_formed_section sections →
  split FILE_MARKER (render sections)
  = [] :: ((λ hb, hb.1 ++ newline :: hb.2) <$> sections).
Proof.
  intros Hwf. rewrite split_cons.
  change (render sections) with ([] ++ render sections).
  by rewrite (split_go_render sections [] Hwf).
Qed.

(** A response made of N well-formed sections is extracted into N
    entries, in order; the path of each is its header trimmed, and its
    content is its body with the backticks at the two ends removed and
    then trimmed. *)
Lemma well_formed_extraction (sections : list (pystr * pystr)) :
  Forall well_formed_section sections →
  extract_sections (render sections)
  = (λ hb, (strip hb.1, strip (strip_chars is_backtick hb.2))) <$> sections.
Proof.
  intros Hwf. rewrite extract_sections_spec, (split_render _ Hwf).
  cbn [parsed_sections].
  assert (parse_section [] = Blank) as -> by done.
  induction Hwf as [|[h b] rest (Hh & Hne & _) Hwf IH]; [done|].
  cbn [fmap list_fmap parsed_sections fst snd] in *.
  unfold parse_section at 1. cbn [fst snd] in Hh, Hne.
  rewrite Hne, (split_newline_once_app _ _ Hh). by rewrite IH.
Qed.

Example scenario_A_is_well_formed :
  scenario_A
  = render [(py "index.html", py "```html
<h1>Hi</h1>
```
"); (py "styles.css", py "```css
h1{color:red;}
```
"); (py "script.js", py "```javascript
console.log(1);
```")]
  ∧ Forall well_formed_section [(py "index.html", py "```html
<h1>Hi</h1>
```
"); (py "styles.css", py "```css
h1{color:red;}
```
"); (py "script.js", py "```javascript
console.log(1);
```")].
Proof.
  split; [by vm_compute|].
  repeat apply Forall_cons_2; [..|apply Forall_nil_2];
    (split_and!; [apply (bool_decide_unpack _)|..]; by vm_compute).
Qed.

(** ** Fragments without a newline *)

Lemma parse_section_no_newline (f : pystr) :
  newline ∉ f →
  parse_section f
  = if is_empty (strip f) then Blank else BadFormat (bad_format_warning f).
Proof.
  intros Hn. unfold parse_section.
  by rewrite (split_newline_once_absent _ Hn).
Qed.

Lemma parse_section_with_newline (f : pystr) :
  newline ∈ f → is_empty (strip f) = false →
  ∃ file_name file_content, parse_section f = Parsed file_name file_content.
Proof.
  intros Hin Hne. unfold parse_section. rewrite Hne.
  destruct (split_newline_once_present _ Hin) as (a & b & -> & _). eauto.
Qed.

Lemma preview_loop_app (l1 l2 : list pystr) (v : preview_vars) :
  preview_loop (l1 ++ l2) v
  = ((preview_loop l2 (preview_loop l1 v).1).1,
     (preview_loop l1 v).2 ++ (preview_loop l2 (preview_loop l1 v).1).2).
Proof.
  revert v. induction l1 as [|s l1 IH]; intros v; cbn.
  - by destruct (preview_loop l2 v).
  - destruct (parse_section s); [apply IH|apply IH|].
    rewrite IH. by destruct (preview_loop l1 v).
Qed.

Lemma preview_loop_skip (f : pystr) (rest : list pystr) (v : preview_vars) :
  newline ∉ f →
  preview_loop (f :: rest) v
  = ((preview_loop rest v).1,
     (if is_empty (strip f) then [] else [StWarning (bad_format_warning f)])
     ++ (preview_loop rest v).2).
Proof.
  intros Hn. cbn [preview_loop]. rewrite (parse_section_no_newline _ Hn).
  destruct (is_empty (strip f)); by destruct (preview_loop rest v).
Qed.

(** ** Properties of the extraction *)

(** C1 (the code departs from the claim). On the Scenario A response the
    extraction yields three entries with the three header paths, but the
    contents are not the bare file texts: [strip("```")] removes backticks
    at the two ends only, so the language tag after the opening fence
    stays, and so does a closing fence that is followed by the newline
    before the next header. *)
Theorem scenario_A_keeps_fence_text :
  extract_sections scenario_A
  = [(py "index.html", py "html
<h1>Hi</h1>
```");
     (py "styles.css", py "css
h1{color:red;}
```");
     (py "script.js", py "javascript
console.log(1);")]
  ∧ preview_extract scenario_A
    = PreviewVars (py "html
<h1>Hi</h1>
```") (py "css
h1{color:red;}
```") (py "javascript
console.log(1);")
  ∧ extract_sections scenario_A
    ≠ [(py "index.html", py "<h1>Hi</h1>");
       (py "styles.css", py "h1{color:red;}");
       (py "script.js", py "console.log(1);")].
Proof. split_and!; [by vm_compute|by vm_compute|]. vm_compute. discriminate. Qed.

(** C2, as stated, fails: a response without any marker whose text has a
    first line and a body is extracted as a file named by the first line,
    in the archive and in the preview variables alike. *)
Lemma no_marker_text_is_extracted :
  find FILE_MARKER no_marker_response = None
  ∧ extract_sections no_marker_response = [(py "index.html", py "<p>hi</p>")]
  ∧ html_code (preview_extract no_marker_response) = py "<p>hi</p>"
  ∧ ¬ (find FILE_MARKER no_marker_response = None →
       extract_sections no_marker_response = []).
Proof.
  split_and!; [by vm_compute..|].
  intros H. specialize (H eq_refl). vm_compute in H. discriminate H.
Qed.

(** The first fragment of a loop, by its shape. *)
Lemma first_fragment_cases (pre : pystr) (later : list pystr)
    (start : preview_vars) :
  (is_empty (strip pre) = true →
   parsed_sections (pre :: later) = parsed_sections later
   ∧ preview_loop (pre :: later) start = preview_loop later start
   ∧ ∀ zf, write_sections (pre :: later) zf = write_sections later zf)
  ∧ (is_empty (strip pre) = false → newline ∉ pre →
     parsed_sections (pre :: later) = parsed_sections later
     ∧ preview_loop (pre :: later) start
       = ((preview_loop later start).1,
          StWarning (bad_format_warning pre) :: (preview_loop later start).2)
     ∧ ∀ zf, write_sections (pre :: later) zf
             = ((write_sections later zf).1.1,
                StWarning (bad_format_warning pre)
                  :: (write_sections later zf).1.2,
                (write_sections later zf).2))
  ∧ (is_empty (strip pre) = false → newline ∈ pre →
     ∃ file_name body,
       pre = file_name ++ newline :: body ∧ (newline ∉ file_name)
       ∧ parsed_sections (pre :: later)
         = (strip file_name, strip (strip_chars is_backtick body))
             :: parsed_sections later
       ∧ preview_loop (pre :: later) start
         = preview_loop later
             (preview_assign start file_name
                (strip (strip_chars is_backtick body)))).
Proof.
  split_and!.
  - intros Hb. assert (parse_section pre = Blank) as Hp.
    { unfold parse_section. by rewrite Hb. }
    cbn [parsed_sections preview_loop write_sections]. by rewrite Hp.
  - intros Hb Hn.
    assert (parse_section pre = BadFormat (bad_format_warning pre)) as Hp.
    { rewrite (parse_section_no_newline _ Hn). by rewrite Hb. }
    cbn [parsed_sections preview_loop write_sections]. rewrite Hp.
    split_and!; [done| |].
    + by destruct (preview_loop later start).
    + intros zf. by destruct (write_sections later zf) as [[? ?] ?].
  - intros Hb Hin.
    destruct (split_newline_once_present _ Hin) as (a & b & Hs & Hpre & Ha).
    exists a, b.
    assert (parse_section pre
            = Parsed a (strip (strip_chars is_backtick b))) as Hp.
    { unfold parse_section. by rewrite Hb, Hs. }
    cbn [parsed_sections preview_loop]. by rewrite Hp.
Qed.

(** C2, amended. The text before the first marker is the first fragment
    of both loops and is treated like every other fragment.  When it is
    blank it is dropped without a word; when it is not blank and has no
    newline it is dropped with the warning that quotes its first 30
    characters; in both cases the extraction is that of the later
    fragments alone, so that a response without any marker that is blank
    or a single line yields the empty result.  When it is not blank and
    has a newline it is extracted as the first entry, its first line being
    the path.  (In the first two cases the fragment never reaches
    [writestr], so that nothing is raised for it.) *)
Theorem preamble_dropped_when_blank_or_single_line (code : pystr) :
  let pre := preamble code in
  let later := tail (split FILE_MARKER code) in
  let start := PreviewVars [] [] [] in
  split FILE_MARKER code = pre :: later
  ∧ (is_empty (strip pre) = true →
     extract_sections code = parsed_sections later
     ∧ preview_loop (split FILE_MARKER code) start = preview_loop later start
     ∧ ∀ zf, write_sections (split FILE_MARKER code) zf
             = write_sections later zf)
  ∧ (is_empty (strip pre) = false → newline ∉ pre →
     extract_sections code = parsed_sections later
     ∧ preview_loop (split FILE_MARKER code) start
       = ((preview_loop later start).1,
          StWarning (py "Unexpected format in section: " ++ take 30 pre
                     ++ py "...")
            :: (preview_loop later start).2)
     ∧ ∀ zf, write_sections (split FILE_MARKER code) zf
             = ((write_sections later zf).1.1,
                StWarning (py "Unexpected format in section: " ++ take 30 pre
                           ++ py "...")
                  :: (write_sections later zf).1.2,
                (write_sections later zf).2))
  ∧ (is_empty (strip pre) = false → newline ∈ pre →
     ∃ file_name body,
       pre = file_name ++ newline :: body ∧ (newline ∉ file_name)
       ∧ extract_sections code
         = (strip file_name, strip (strip_chars is_backtick body))
             :: parsed_sections later
       ∧ preview_loop (split FILE_MARKER code) start
         = preview_loop later
             (preview_assign start file_name
                (strip (strip_chars is_backtick body))))
  ∧ (find FILE_MARKER code = None →
     pre = code ∧ later = []
     ∧ (is_empty (strip code) = true ∨ newline ∉ code →
        extract_sections code = []
        ∧ preview_extract code = PreviewVars [] [] [])).
Proof.
  intros pre later start.
  assert (split FILE_MARKER code = pre :: later) as Hs.
  { subst pre later. rewrite split_cons. cbn [tail]. f_equal.
    apply split_first_piece. }
  assert (find FILE_MARKER code = None → pre = code ∧ later = []) as Hnone.
  { intros Hf. subst pre later. unfold preamble.
    by rewrite Hf, (split_no_occurrence _ _ Hf). }
  subst start.
  destruct (first_fragment_cases pre later (PreviewVars [] [] []))
    as (Hblank & Hline & Hfile).
  unfold extract_sections, preview_extract. rewrite Hs.
  split_and!; [done|exact Hblank|exact Hline|exact Hfile|].
  intros Hf. destruct (Hnone Hf) as [Hpre Hlater].
  split_and!; [done..|]. rewrite <- Hpre. intros [Hb|Hn].
  - destruct (Hblank Hb) as (-> & -> & _). by rewrite Hlater.
  - destruct (is_empty (strip pre)) eqn:Hb.
    + destruct (Hblank eq_refl) as (-> & -> & _). by rewrite Hlater.
    + destruct (Hline eq_refl Hn) as (-> & -> & _). by rewrite Hlater.
Qed.

Lemma preamble_dropped_witness :
  is_empty (strip (preamble chatty_response)) = false
  ∧ (newline ∉ preamble chatty_response)
  ∧ extract_sections chatty_response
    = parsed_sections (tail (split FILE_MARKER chatty_response))
  ∧ preview_loop (split FILE_MARKER chatty_response) (PreviewVars [] [] [])
    = ((preview_loop (tail (split FILE_MARKER chatty_response))
          (PreviewVars [] [] [])).1,
       StWarning (py "Unexpected format in section: "
                  ++ take 30 (preamble chatty_response) ++ py "...")
         :: (preview_loop (tail (split FILE_MARKER chatty_response))
               (PreviewVars [] [] [])).2)
  ∧ (is_empty (strip (preamble no_marker_response)) = false
     ∧ newline ∈ preamble no_marker_response
     ∧ ∃ file_name body,
         preamble no_marker_response = file_name ++ newline :: body
         ∧ extract_sections no_marker_response
           = (strip file_name, strip (strip_chars is_backtick body))
               :: parsed_sections (tail (split FILE_MARKER no_marker_response))).
Proof.
  assert (is_empty (strip (preamble chatty_response)) = false) as H1
    by (vm_compute; reflexivity).
  assert (newline ∉ preamble chatty_response) as H2.
  { apply (bool_decide_unpack _). vm_compute. exact I. }
  assert (is_empty (strip (preamble no_marker_response)) = false) as H3
    by (vm_compute; reflexivity).
  assert (newline ∈ preamble no_marker_response) as H4.
  { apply (bool_decide_unpack _). vm_compute. exact I. }
  destruct (preamble_dropped_when_blank_or_single_line chatty_response)
    as (_ & _ & Hline & _).
  destruct (Hline H1 H2) as (He & Hp & _).
  destruct (preamble_dropped_when_blank_or_single_line no_marker_response)
    as (_ & _ & _ & Hfile & _).
  destruct (Hfile H3 H4) as (fn & body & Hpre & _ & Hex & _).
  split_and!; [exact H1|exact H2|exact He|exact Hp|exact H3|exact H4|].
  exists fn, body. split; [exact Hpre|exact Hex].
Defined.

(** ** Properties of the archive *)

(** The finished archive when every extracted entry is writable. *)
Lemma create_zip_file_members (code : pystr) (fw : framework) :
  forallb writable (extract_sections code) = true →
  create_zip_file code fw
  = (extract_sections code
     ++ ((λ req_file, (req_file, placeholder fw req_file))
           <$> filter (λ req_file, req_file ∉ namelist (extract_sections code))
                 (required_files fw))
     ++ [(py "README.md", readme_content fw)],
     format_warnings (split FILE_MARKER code)).
Proof.
  intros Hw. rewrite create_zip_file_unfold.
  destruct (loop_writable _ Hw) as (-> & -> & ->). done.
Qed.

Lemma namelist_members (members : zipfile) (content : pystr → pystr)
    (missing : list pystr) (name data : pystr) :
  namelist (members ++ ((λ r, (r, content r)) <$> missing) ++ [(name, data)])
  = namelist members ++ missing ++ [name].
Proof.
  unfold namelist. rewrite !fmap_app, <- list_fmap_compose.
  by rewrite list_fmap_id.
Qed.

Lemma filter_absent (x : pystr) (l : list pystr) :
  x ∉ l → filter (λ n, n = x) l = [].
Proof.
  induction l as [|y l IH]; [done|].
  intros [Hne Hl]%not_elem_of_cons.
  rewrite filter_cons_False by congruence. by apply IH.
Qed.

(** C3, as stated, fails.  A section with an empty header line is
    extracted, but [writestr] refuses the empty name: the loop is left, the
    error is shown, and the archive has neither that entry, nor a
    placeholder, nor a README.  And a response that brings a [README.md]
    gets an archive with two members of that name. *)
Lemma archive_not_always_complete :
  extract_sections blank_header_response = [([], py "body{}")]
  ∧ create_zip_file blank_header_response React
    = ([], [StError (py "Error while creating ZIP file: string index out of range")])
  ∧ extract_sections readme_response = [(py "README.md", py "hello")]
  ∧ namelist (create_zip_file readme_response HtmlCssJs).1
    = [py "README.md"; py "index.html"; py "styles.css"; py "script.js";
       py "README.md"].
Proof. split_and!; by vm_compute. Qed.

(** C3, amended. When every extracted entry is one that the archive writer
    stores as it is (a name that is not empty, without NUL or lone
    surrogate and of at most 65535 bytes, a content without lone
    surrogate), the archive consists of the extracted entries, in order
    and with their contents unchanged, then of one placeholder for each
    required file of the framework that no extracted entry is named
    after, then of the one [README.md] entry written by the packaging
    step: one member per extracted entry, one per missing required file
    and one more, [README.md] occurring once more than among the
    extracted paths; and only the warnings of the unpacking are shown. *)
Theorem archive_contents (code : pystr) (fw : framework) :
  forallb writable (extract_sections code) = true →
  let missing :=
    filter (λ req_file, req_file ∉ namelist (extract_sections code))
      (required_files fw) in
  (create_zip_file code fw).1
  = extract_sections code
    ++ ((λ req_file, (req_file, placeholder fw req_file)) <$> missing)
    ++ [(py "README.md", readme_content fw)]
  ∧ length (create_zip_file code fw).1
    = (length (extract_sections code) + length missing + 1)%nat
  ∧ (∀ req_file, req_file ∈ missing ↔
       req_file ∈ required_files fw
       ∧ req_file ∉ namelist (extract_sections code))
  ∧ length (filter (λ n, n = py "README.md")
              (namelist (create_zip_file code fw).1))
    = S (length (filter (λ n, n = py "README.md")
                   (namelist (extract_sections code))))
  ∧ (create_zip_file code fw).2 = format_warnings (split FILE_MARKER code).
Proof.
  intros Hw missing. subst missing.
  rewrite (create_zip_file_members _ _ Hw). cbn [fst snd].
  set (missing := filter _ (required_files fw)).
  split_and!.
  - done.
  - rewrite !length_app, length_fmap. cbn [length]. lia.
  - intros req_file. subst missing. rewrite list_elem_of_filter. tauto.
  - rewrite namelist_members, !filter_app, !length_app.
    assert (filter (λ n, n = py "README.md") missing = []) as ->.
    { apply filter_absent. subst missing. rewrite list_elem_of_filter.
      intros [_ Hr]. by apply (required_files_not_readme fw). }
    rewrite filter_cons_True by done. rewrite filter_nil. cbn [length]. lia.
  - done.
Qed.

Lemma archive_contents_witness :
  forallb writable (extract_sections scenario_A) = true
  ∧ (create_zip_file scenario_A HtmlCssJs).1
    = extract_sections scenario_A
      ++ ((λ req_file, (req_file, placeholder HtmlCssJs req_file))
            <$> filter (λ req_file,
                          req_file ∉ namelist (extract_sections scenario_A))
                  (required_files HtmlCssJs))
      ++ [(py "README.md", readme_content HtmlCssJs)].
Proof.
  assert (forallb writable (extract_sections scenario_A) = true) as H
    by (vm_compute; reflexivity).
  split; [exact H|].
  exact (proj1 (archive_contents scenario_A HtmlCssJs H)).
Defined.

(** C4, as stated, fails: an empty fragment has no newline, yet it is
    passed over by the blank test before the [try] block and no warning is
    shown for it.  And in [create_zip_file] a fragment cut short is not
    even reached when an earlier section made [writestr] raise: the error
    is shown, not the warning, while the preview loop shows the warning. *)
Lemma blank_fragment_gets_no_warning :
  split FILE_MARKER empty_fragment_response = [[]; []; py "a
b"]
  ∧ (newline ∉ ([] : pystr))
  ∧ (create_zip_file empty_fragment_response React).2 = []
  ∧ (preview_loop (split FILE_MARKER empty_fragment_response)
       (PreviewVars [] [] [])).2 = []
  ∧ split FILE_MARKER aborted_response
    = [[]; py "
body{}
"; py "tail-without-newline"]
  ∧ create_zip_file aborted_response React
    = ([], [StError (py "Error while creating ZIP file: string index out of range")])
  ∧ (preview_loop (split FILE_MARKER aborted_response)
       (PreviewVars [] [] [])).2
    = [StWarning (py "Unexpected format in section: tail-without-newline...")].
Proof. split_and!; [by vm_compute|apply not_elem_of_nil|by vm_compute..]. Qed.

(** C4, amended. A fragment without a newline is skipped by both loops,
    and the other sections give what they give without it: it neither
    stops a loop nor changes whether the archive loop is left early.
    When it is not blank and the loop reaches it, one warning quoting its
    first 30 characters is shown in its place (the preview loop always
    reaches it; the archive loop does unless an exception raised by the
    archive writer for an earlier section has ended it); when it is blank
    it is passed over silently. *)
Theorem newline_free_fragment_skipped (before after : list pystr) (f : pystr)
    (zf : zipfile) (v : preview_vars) :
  newline ∉ f →
  let shown :=
    if is_empty (strip f) then []
    else [StWarning (py "Unexpected format in section: "
                     ++ take 30 f ++ py "...")] in
  write_sections (before ++ f :: after) zf
  = match (write_sections before zf).2 with
    | Some e => write_sections before zf
    | None =>
        ((write_sections after (write_sections before zf).1.1).1.1,
         (write_sections before zf).1.2 ++ shown
         ++ (write_sections after (write_sections before zf).1.1).1.2,
         (write_sections after (write_sections before zf).1.1).2)
    end
  ∧ (write_sections (before ++ f :: after) zf).1.1
    = (write_sections (before ++ after) zf).1.1
  ∧ (write_sections (before ++ f :: after) zf).2
    = (write_sections (before ++ after) zf).2
  ∧ preview_loop (before ++ f :: after) v
    = ((preview_loop (before ++ after) v).1,
       (preview_loop before v).2 ++ shown
       ++ (preview_loop after (preview_loop before v).1).2).
Proof.
  intros Hn shown.
  assert (∀ zf1, write_sections (f :: after) zf1
                 = ((write_sections after zf1).1.1,
                    shown ++ (write_sections after zf1).1.2,
                    (write_sections after zf1).2)) as Hf.
  { intros zf1. cbn [write_sections].
    rewrite (parse_section_no_newline _ Hn). subst shown.
    destruct (is_empty (strip f));
      by destruct (write_sections after zf1) as [[? ?] ?]. }
  rewrite !write_sections_app.
  destruct (write_sections before zf) as [[zf1 evs1] [e|]] eqn:Hb;
    cbn [fst snd].
  - split_and!; [done..|].
    rewrite !preview_loop_app. cbn [fst snd].
    by rewrite (preview_loop_skip _ _ _ Hn).
  - rewrite Hf. cbn [fst snd]. split_and!; [done..|].
    rewrite !preview_loop_app. cbn [fst snd].
    by rewrite (preview_loop_skip _ _ _ Hn).
Qed.

Lemma newline_free_fragment_witness :
  (newline ∉ py "styles.css")
  ∧ split FILE_MARKER cut_header_response
    = [[]; py "index.html
<p>hi</p>
"] ++ py "styles.css" :: [py "script.js
alert(1);"]
  ∧ write_sections
      ([[]; py "index.html
<p>hi</p>
"] ++ py "styles.css" :: [py "script.js
alert(1);"]) []
    = ([(py "index.html", py "<p>hi</p>"); (py "script.js", py "alert(1);")],
       [StWarning (py "Unexpected format in section: styles.css...")],
       None).
Proof.
  assert (newline ∉ py "styles.css") as H.
  { apply (bool_decide_unpack _). vm_compute. exact I. }
  split_and!; [exact H|by vm_compute|].
  etrans;
    [exact (proj1 (newline_free_fragment_skipped
                     [[]; py "index.html
<p>hi</p>
"] [py "script.js
alert(1);"] (py "styles.css") [] (PreviewVars [] [] []) H))|].
  vm_compute. reflexivity.
Defined.

(** ** Properties of the live preview *)

(** The preview variables hold, for each of the three names, the content
    of the last extracted section of that name, and are empty without one. *)
Lemma preview_extract_spec (code : pystr) :
  preview_extract code
  = PreviewVars
      (default [] (getinfo (extract_sections code) (py "index.html")))
      (default [] (getinfo (extract_sections code) (py "styles.css")))
      (default [] (getinfo (extract_sections code) (py "script.js"))).
Proof.
  unfold preview_extract. rewrite extract_sections_spec.
  destruct (preview_loop_slots (split FILE_MARKER code) (PreviewVars [] [] []))
    as (Hh & Hc & Hj).
  destruct (preview_loop _ _).1 as [h c j]. cbn in Hh, Hc, Hj. by subst.
Qed.

Lemma live_preview_unfold (code : pystr) :
  live_preview code
  = format_warnings (split FILE_MARKER code)
    ++ (if negb (is_empty (html_code (preview_extract code)))
           && negb (is_empty (css_code (preview_extract code)))
           && negb (is_empty (js_code (preview_extract code)))
        then [StSubheader (py "Live Preview");
              StHtml (complete_html (preview_extract code))]
        else [StWarning preview_missing_warning]).
Proof.
  unfold live_preview, preview_extract.
  rewrite <- (preview_loop_warnings (split FILE_MARKER code)
                (PreviewVars [] [] [])).
  destruct (preview_loop _ _) as [v evs]. cbn [fst snd].
  by destruct (_ && _).
Qed.

(** C5, as stated, fails: all three paths are extracted, the stylesheet
    with an empty content, and the preview is not assembled. *)
Lemma empty_stylesheet_blocks_preview :
  extract_sections empty_styles_response
  = [(py "index.html", py "<p>hi</p>"); (py "styles.css", []);
     (py "script.js", py "alert(1);")]
  ∧ live_preview empty_styles_response = [StWarning preview_missing_warning]
  ∧ ¬ ((∃ doc, StHtml doc ∈ live_preview empty_styles_response)
       ↔ (py "index.html" ∈ namelist (extract_sections empty_styles_response)
          ∧ py "styles.css" ∈ namelist (extract_sections empty_styles_response)
          ∧ py "script.js" ∈ namelist (extract_sections empty_styles_response))).
Proof.
  assert (live_preview empty_styles_response
          = [StWarning preview_missing_warning]) as Hlp by (by vm_compute).
  split_and!; [by vm_compute|exact Hlp|].
  intros [_ Hback].
  destruct Hback as [doc Hdoc].
  { split_and!; apply (bool_decide_unpack _); vm_compute; exact I. }
  rewrite Hlp in Hdoc. apply list_elem_of_singleton in Hdoc. discriminate Hdoc.
Qed.

(** C5, amended. With [latest p] the content of the last extracted section
    named [p] (empty when there is none), the preview document is shown,
    built from the three contents, exactly when the three are non-empty;
    otherwise the warning is shown, which is the case in particular when
    one of the three paths was not extracted. *)
Theorem live_preview_when_three_nonempty (code : pystr) :
  let latest p := default [] (getinfo (extract_sections code) p) in
  let v := PreviewVars (latest (py "index.html")) (latest (py "styles.css"))
             (latest (py "script.js")) in
  (latest (py "index.html") ≠ [] ∧ latest (py "styles.css") ≠ []
   ∧ latest (py "script.js") ≠ [] →
   live_preview code
   = format_warnings (split FILE_MARKER code)
     ++ [StSubheader (py "Live Preview"); StHtml (complete_html v)])
  ∧ (¬ (latest (py "index.html") ≠ [] ∧ latest (py "styles.css") ≠ []
        ∧ latest (py "script.js") ≠ []) →
     live_preview code
     = format_warnings (split FILE_MARKER code)
       ++ [StWarning preview_missing_warning])
  ∧ (∀ p, p ∈ [py "index.html"; py "styles.css"; py "script.js"] →
     p ∉ namelist (extract_sections code) →
     live_preview code
     = format_warnings (split FILE_MARKER code)
       ++ [StWarning preview_missing_warning]).
Proof.
  intros latest v.
  assert (preview_extract code = v) as Hv by apply preview_extract_spec.
  assert (∀ s : pystr, negb (is_empty s) = true ↔ s ≠ []) as Hne.
  { intros [|c s]; cbn; split; congruence. }
  assert (¬ (latest (py "index.html") ≠ [] ∧ latest (py "styles.css") ≠ []
             ∧ latest (py "script.js") ≠ []) →
          live_preview code
          = format_warnings (split FILE_MARKER code)
            ++ [StWarning preview_missing_warning]) as Hskip.
  { intros Hnot. rewrite live_preview_unfold, Hv.
    subst v. cbn [html_code css_code js_code].
    destruct (_ && _) eqn:Hall; [|done].
    exfalso. apply Hnot.
    apply andb_true_iff in Hall as [Hall Hj].
    apply andb_true_iff in Hall as [Hh Hc].
    by rewrite <- !Hne. }
  split_and!; [|exact Hskip|].
  - intros (Hh & Hc & Hj). rewrite live_preview_unfold, Hv.
    subst v. cbn [html_code css_code js_code].
    apply Hne in Hh, Hc, Hj. by rewrite Hh, Hc, Hj.
  - intros p Hp Hmiss. apply Hskip. intros (Hh & Hc & Hj).
    apply getinfo_None in Hmiss.
    repeat (apply elem_of_cons in Hp as [->|Hp]);
      [apply Hh|apply Hc|apply Hj|by apply elem_of_nil in Hp];
      subst latest; cbn; by rewrite Hmiss.
Qed.

Lemma live_preview_witness :
  (default [] (getinfo (extract_sections scenario_A) (py "index.html")) ≠ []
   ∧ default [] (getinfo (extract_sections scenario_A) (py "styles.css")) ≠ []
   ∧ default [] (getinfo (extract_sections scenario_A) (py "script.js")) ≠ [])
  ∧ live_preview scenario_A
    = format_warnings (split FILE_MARKER scenario_A)
      ++ [StSubheader (py "Live Preview");
          StHtml (complete_html (PreviewVars
            (default [] (getinfo (extract_sections scenario_A) (py "index.html")))
            (default [] (getinfo (extract_sections scenario_A) (py "styles.css")))
            (default [] (getinfo (extract_sections scenario_A) (py "script.js")))))].
Proof.
  assert (default [] (getinfo (extract_sections scenario_A) (py "index.html")) ≠ []
   ∧ default [] (getinfo (extract_sections scenario_A) (py "styles.css")) ≠ []
   ∧ default [] (getinfo (extract_sections scenario_A) (py "script.js")) ≠ [])
    as H.
  { split_and!; vm_compute; discriminate. }
  split; [exact H|].
  exact (proj1 (live_preview_when_three_nonempty scenario_A) H).
Defined.

(** ** Duplicate paths *)

Lemma format_warnings_only_malformed (sections : list pystr) (e : ui_event) :
  e ∈ format_warnings sections →
  ∃ f, f ∈ sections ∧ (newline ∉ f) ∧ e = StWarning (bad_format_warning f).
Proof.
  induction sections as [|s rest IH]; cbn; intros He.
  - by apply elem_of_nil in He.
  - assert (e ∈ format_warnings rest →
            ∃ f, f ∈ s :: rest ∧ (newline ∉ f)
                 ∧ e = StWarning (bad_format_warning f)) as Hrest.
    { intros (f & Hf & Hrest)%IH. exists f. split; [by right|done]. }
    destruct (parse_section s) as [| |w] eqn:Hp; [by apply Hrest..|].
    apply elem_of_cons in He as [->|He]; [|by apply Hrest].
    exists s. split; [by left|].
    destruct (decide (newline ∈ s)) as [Hin|Hnot].
    + exfalso. unfold parse_section in Hp.
      destruct (is_empty (strip s)); [discriminate|].
      destruct (split_newline_once_present _ Hin) as (a & b & Hab & _).
      rewrite Hab in Hp. discriminate.
    + split; [done|]. rewrite (parse_section_no_newline _ Hnot) in Hp.
      destruct (is_empty (strip s)); congruence.
Qed.

(** C6, as stated, fails for the archive: nothing is overwritten there.
    Both sections are written, and the archive holds two members of the
    same name, the earlier one first. *)
Lemma duplicate_keeps_both_members :
  extract_sections duplicate_response
  = [(py "index.html", py "first"); (py "index.html", py "second")]
  ∧ (create_zip_file duplicate_response HtmlCssJs).1
    = [(py "index.html", py "first"); (py "index.html", py "second");
       (py "styles.css", py "/* styles.css content missing */");
       (py "script.js", py "/* script.js content missing */");
       (py "README.md", readme_content HtmlCssJs)]
  ∧ html_code (preview_extract duplicate_response) = py "second".
Proof. split_and!; by vm_compute. Qed.

(** C6, amended. When two extracted sections carry the same path, the
    outcome is a function of the response alone.  In the preview the
    later section replaces the earlier one: the variable of that name
    holds the content of the last section so named, and the only warnings
    shown concern fragments without a newline.  In the archive nothing is
    replaced: when the archive writer stores the extracted entries as they
    are, both sections are members, the earlier before the later, and
    again nothing is shown about the duplicate. *)
Theorem duplicate_path_last_wins (code : pystr) (l1 l2 l3 : zipfile)
    (p c1 c2 : pystr) :
  extract_sections code = l1 ++ (p, c1) :: l2 ++ (p, c2) :: l3 →
  p ∉ namelist l3 →
  (p = py "index.html" → html_code (preview_extract code) = c2)
  ∧ (p = py "styles.css" → css_code (preview_extract code) = c2)
  ∧ (p = py "script.js" → js_code (preview_extract code) = c2)
  ∧ (∀ e, e ∈ (preview_loop (split FILE_MARKER code) (PreviewVars [] [] [])).2 →
       ∃ f, f ∈ split FILE_MARKER code ∧ (newline ∉ f)
            ∧ e = StWarning (bad_format_warning f))
  ∧ (forallb writable (extract_sections code) = true →
     ∀ fw,
       (∃ rest, (create_zip_file code fw).1
                = l1 ++ (p, c1) :: l2 ++ (p, c2) :: l3 ++ rest)
       ∧ ∀ e, e ∈ (create_zip_file code fw).2 →
              ∃ f, f ∈ split FILE_MARKER code ∧ (newline ∉ f)
                   ∧ e = StWarning (bad_format_warning f)).
Proof.
  intros Hex Hlast.
  assert (getinfo (extract_sections code) p = Some c2) as Hget.
  { rewrite Hex.
    replace (l1 ++ (p, c1) :: l2 ++ (p, c2) :: l3)
      with ((l1 ++ (p, c1) :: l2) ++ (p, c2) :: l3)
      by (by rewrite <- app_assoc).
    by apply getinfo_last. }
  rewrite preview_extract_spec. cbn [html_code css_code js_code].
  split_and!.
  - intros ->. by rewrite Hget.
  - intros ->. by rewrite Hget.
  - intros ->. by rewrite Hget.
  - intros e. rewrite preview_loop_warnings.
    apply format_warnings_only_malformed.
  - intros Hw fw. rewrite (create_zip_file_members _ _ Hw). cbn [fst snd].
    split.
    + eexists. rewrite Hex. rewrite <- !app_assoc. cbn [app].
      rewrite <- !app_assoc. cbn [app]. reflexivity.
    + intros e. apply format_warnings_only_malformed.
Qed.

Lemma duplicate_path_witness :
  extract_sections duplicate_response
  = [] ++ (py "index.html", py "first") :: [] ++ (py "index.html", py "second") :: []
  ∧ (py "index.html" ∉ namelist [])
  ∧ html_code (preview_extract duplicate_response) = py "second"
  ∧ forallb writable (extract_sections duplicate_response) = true
  ∧ ∃ rest, (create_zip_file duplicate_response React).1
            = [] ++ (py "index.html", py "first")
                :: [] ++ (py "index.html", py "second") :: [] ++ rest.
Proof.
  assert (extract_sections duplicate_response
          = [] ++ (py "index.html", py "first")
              :: [] ++ (py "index.html", py "second") :: []) as H1
    by (vm_compute; reflexivity).
  assert (py "index.html" ∉ namelist []) as H2 by apply not_elem_of_nil.
  assert (forallb writable (extract_sections duplicate_response) = true) as H3
    by (vm_compute; reflexivity).
  pose proof (duplicate_path_last_wins duplicate_response [] [] []
                (py "index.html") (py "first") (py "second") H1 H2)
    as (Hh & _ & _ & _ & Harch).
  split_and!; [exact H1|exact H2|exact (Hh eq_refl)|exact H3|].
  exact (proj1 (Harch H3 React)).
Defined.

(** ** The session state *)

Lemma init_session_state_lookup (ss : gmap string pystr) (k : string) :
  init_session_state ss !! k
  = if bool_decide (k = "generated_code"%string ∨ k = "fine_tuned_code"%string)
    then Some (attr ss k) else ss !! k.
Proof.
  unfold init_session_state, attr.
  destruct (ss !! "generated_code"%string) as [g|] eqn:Hg.
  - destruct (ss !! "fine_tuned_code"%string) as [t|] eqn:Ht.
    + case_bool_decide as Hk; [|done]. destruct Hk as [->| ->].
      * by rewrite Hg.
      * by rewrite Ht.
    + rewrite lookup_insert. case_decide as Hd.
      * subst k. rewrite Ht. by rewrite bool_decide_true by auto.
      * case_bool_decide as Hk; [|done].
        destruct Hk as [->| ->]; [|done]. by rewrite Hg.
  - rewrite lookup_insert_ne by done.
    destruct (ss !! "fine_tuned_code"%string) as [t|] eqn:Ht.
    + rewrite lookup_insert. case_decide as Hd.
      * subst k. rewrite Hg. by rewrite bool_decide_true by auto.
      * case_bool_decide as Hk; [|done].
        destruct Hk as [->| ->]; [done|]. by rewrite Ht.
    + rewrite !lookup_insert. repeat case_decide; subst;
        try (rewrite ?Hg, ?Ht; by rewrite bool_decide_true by auto).
      case_bool_decide as Hk; [|done]. by destruct Hk.
Qed.

(** Initialisation adds the two empty slots when they are missing and
    changes no stored text. *)
Lemma init_session_state_attr (ss : gmap string pystr) (k : string) :
  attr (init_session_state ss) k = attr ss k.
Proof.
  unfold attr at 1. rewrite init_session_state_lookup.
  case_bool_decide; [done|]. reflexivity.
Qed.

Lemma init_session_state_idem (ss : gmap string pystr) :
  init_session_state (init_session_state ss) = init_session_state ss.
Proof.
  apply map_eq. intros k. rewrite (init_session_state_lookup (init_session_state ss)).
  case_bool_decide as Hk; [|done].
  rewrite init_session_state_attr, init_session_state_lookup.
  by rewrite bool_decide_true.
Qed.

Lemma init_session_state_store (ss : gmap string pystr) (g : pystr) :
  init_session_state (store ss g) = store ss g.
Proof.
  unfold init_session_state, store.
  rewrite lookup_insert_ne by done. rewrite lookup_insert_eq.
  by rewrite lookup_insert_eq.
Qed.

Lemma store_store (ss : gmap string pystr) (g : pystr) :
  store (store ss g) g = store ss g.
Proof.
  apply map_eq. intros k. unfold store.
  rewrite !lookup_insert. by repeat case_decide.
Qed.

(** What a run of the generate handler does, case by case. *)
Lemma run_on_generate (service : framework → pystr → pystr → completion)
    (ss : gmap string pystr) (fw : framework) (req style : pystr) :
  run service (on_generate ss fw req style)
  = if is_empty (strip req)
    then ((ss, [SidebarWarning
                  (py "Please enter the website requirements prompt.")]), 0%nat)
    else match service fw req style with
         | ApiRaises e =>
             ((ss, [StError (py "An error occurred while generating code: "
                             ++ e)]), 1%nat)
         | ApiContent content =>
             if is_empty (strip content)
             then ((ss, [StError (py "The API returned an empty response. Please try again.")]), 1%nat)
             else ((store ss (strip content),
                    match fw with
                    | HtmlCssJs => live_preview (strip content)
                    | _ => []
                    end), 1%nat)
         end.
Proof.
  unfold on_generate. destruct (is_empty (strip req)); [done|].
  cbn [run]. destruct (service fw req style) as [content|e]; [|done].
  destruct (is_empty (strip content)); [done|]. by destruct fw.
Qed.

(** ** Properties of the handlers *)

(** C7. When the completion comes back empty (nothing is left of it after
    trimming), a run of the script on a click of the generate button makes
    one request, shows the one error message and leaves the stored
    generated and fine-tuned texts as they were. *)
Theorem empty_completion_aborts (service : framework → pystr → pystr → completion)
    (ss : gmap string pystr) (fw : framework) (req style content : pystr) :
  is_empty (strip req) = false →
  service fw req style = ApiContent content →
  is_empty (strip content) = true →
  let '((ss', shown), requests) :=
    run service (script ss fw req style ClickGenerate) in
  shown = [StError (py "The API returned an empty response. Please try again.")]
  ∧ requests = 1%nat
  ∧ ss' = init_session_state ss
  ∧ attr ss' "generated_code" = attr ss "generated_code"
  ∧ attr ss' "fine_tuned_code" = attr ss "fine_tuned_code".
Proof.
  intros Hreq Hans Hempty. unfold script.
  rewrite run_on_generate, Hreq, Hans, Hempty.
  by rewrite !init_session_state_attr.
Qed.

Lemma empty_completion_witness :
  is_empty (strip (py "a landing page")) = false
  ∧ blank_service HtmlCssJs (py "a landing page") (py "Modern")
    = ApiContent (py "  
 ")
  ∧ is_empty (strip (py "  
 ")) = true
  ∧ run blank_service
      (script (store ∅ scenario_A) HtmlCssJs (py "a landing page") (py "Modern")
         ClickGenerate)
    = ((store ∅ scenario_A,
        [StError (py "The API returned an empty response. Please try again.")]),
       1%nat).
Proof.
  assert (is_empty (strip (py "a landing page")) = false) as H1
    by (vm_compute; reflexivity).
  assert (blank_service HtmlCssJs (py "a landing page") (py "Modern")
          = ApiContent (py "  
 ")) as H2 by reflexivity.
  assert (is_empty (strip (py "  
 ")) = true) as H3 by (vm_compute; reflexivity).
  split_and!; [exact H1|exact H2|exact H3|].
  pose proof (empty_completion_aborts blank_service (store ∅ scenario_A)
                HtmlCssJs (py "a landing page") (py "Modern") _ H1 H2 H3) as H.
  destruct (run blank_service _) as [[ss' shown] requests].
  destruct H as (-> & -> & -> & _). by rewrite init_session_state_store.
Defined.

(** C8. What a run shows is a function of its inputs and of the stored
    text only: two generate runs on the same answer show the same
    extraction whatever the sessions held before; repeating a generate run
    in the state it left shows the same again and leaves that state; a
    download run changes no stored text, so that repeating it builds the
    same archive; and two sessions holding the same texts get the same
    archive. *)
Theorem repeated_runs_agree (service : framework → pystr → pystr → completion)
    (ss1 ss2 : gmap string pystr) (fw : framework) (req style : pystr) :
  let generate ss := (run service (script ss fw req style ClickGenerate)).1 in
  let download ss := (run service (script ss fw req style ClickDownload)).1 in
  (generate ss1).2 = (generate ss2).2
  ∧ generate (generate ss1).1 = generate ss1
  ∧ download (download ss1).1 = download ss1
  ∧ (attr ss1 "generated_code" = attr ss2 "generated_code" →
     attr ss1 "fine_tuned_code" = attr ss2 "fine_tuned_code" →
     (download ss1).2 = (download ss2).2).
Proof.
  intros generate download. subst generate download. unfold script.
  cbn [run fst snd].
  split_and!.
  - rewrite !run_on_generate.
    destruct (is_empty (strip req)); [done|].
    destruct (service fw req style) as [content|e]; [|done].
    by destruct (is_empty (strip content)).
  - rewrite (run_on_generate _ (init_session_state ss1)).
    destruct (is_empty (strip req)) eqn:Hreq.
    + cbn [fst snd]. rewrite run_on_generate, Hreq.
      by rewrite init_session_state_idem.
    + destruct (service fw req style) as [content|e] eqn:Hans.
      * destruct (is_empty (strip content)) eqn:Hc; cbn [fst snd];
          rewrite run_on_generate, Hreq, Hans, Hc.
        -- by rewrite init_session_state_idem.
        -- by rewrite init_session_state_store, store_store.
      * cbn [fst snd]. rewrite run_on_generate, Hreq, Hans.
        by rewrite init_session_state_idem.
  - rewrite init_session_state_idem. unfold on_download.
    by rewrite !init_session_state_attr.
  - intros Hg Ht. unfold on_download.
    by rewrite !init_session_state_attr, Hg, Ht.
Qed.

Lemma repeated_runs_witness :
  attr (store ∅ scenario_A) "generated_code"
  = attr (<["visits"%string := py "3"]> (store ∅ scenario_A)) "generated_code"
  ∧ attr (store ∅ scenario_A) "fine_tuned_code"
    = attr (<["visits"%string := py "3"]> (store ∅ scenario_A)) "fine_tuned_code"
  ∧ (run scenario_A_service
       (script (store ∅ scenario_A) React (py "x") (py "y") ClickDownload)).1.2
    = (run scenario_A_service
         (script (<["visits"%string := py "3"]> (store ∅ scenario_A)) React
            (py "x") (py "y") ClickDownload)).1.2.
Proof.
  assert (attr (store ∅ scenario_A) "generated_code"
          = attr (<["visits"%string := py "3"]> (store ∅ scenario_A))
              "generated_code") as H1 by (vm_compute; reflexivity).
  assert (attr (store ∅ scenario_A) "fine_tuned_code"
          = attr (<["visits"%string := py "3"]> (store ∅ scenario_A))
              "fine_tuned_code") as H2 by (vm_compute; reflexivity).
  split_and!; [exact H1|exact H2|].
  exact (proj2 (proj2 (proj2
    (repeated_runs_agree scenario_A_service (store ∅ scenario_A)
       (<["visits"%string := py "3"]> (store ∅ scenario_A)) React
       (py "x") (py "y")))) H1 H2).
Defined.

(** ** Placeholder texts *)

(** C9, as stated, fails: in the HTML/CSS/JavaScript branch the missing
    script file gets a block comment, and in the React branch the missing
    page gets a line comment. *)
Lemma script_placeholder_is_block_comment :
  filter (λ m : pystr * pystr, m.1 = py "script.js")
    (create_zip_file only_index_response HtmlCssJs).1
  = [(py "script.js", py "/* script.js content missing */")]
  ∧ starts_with (py "//") (py "/* script.js content missing */") = false
  ∧ filter (λ m : pystr * pystr, m.1 = py "styles.css")
      (create_zip_file only_index_response HtmlCssJs).1
    = [(py "styles.css", py "/* styles.css content missing */")]
  ∧ filter (λ m : pystr * pystr, m.1 = py "src/App.js")
      (create_zip_file only_index_response React).1
    = [(py "src/App.js", py "// src/App.js content missing")]
  ∧ filter (λ m : pystr * pystr, m.1 = py "public/index.html")
      (create_zip_file only_index_response React).1
    = [(py "public/index.html", py "// public/index.html content missing")].
Proof. split_and!; by vm_compute. Qed.

(** C9, amended. The comment syntax of a placeholder is chosen by the
    framework, not by the file.  The archive is what the section loop
    wrote, followed, unless an exception ended that loop, by one entry for
    each required file that no member is named after and by the README;
    every such entry has the text [// <path> content missing] for React
    and Angular, and [/* <path> content missing */] for
    HTML/CSS/JavaScript. *)
Theorem placeholder_comment_by_framework (code : pystr) (fw : framework) :
  let comment req_file :=
    match fw with
    | React | Angular => py "// " ++ req_file ++ py " content missing"
    | HtmlCssJs => py "/* " ++ req_file ++ py " content missing */"
    end in
  (create_zip_file code fw).1
  = loop_members code
    ++ match loop_raised code with
       | Some _ => []
       | None =>
           ((λ req_file, (req_file, comment req_file))
              <$> filter (λ req_file, req_file ∉ namelist (loop_members code))
                    (required_files fw))
           ++ [(py "README.md", readme_content fw)]
       end
  ∧ ∀ entry,
      entry ∈ drop (length (loop_members code)) (create_zip_file code fw).1 →
      entry = (py "README.md", readme_content fw)
      ∨ (entry.1 ∈ required_files fw
         ∧ (entry.1 ∉ namelist (loop_members code))
         ∧ entry.2 = comment entry.1).
Proof.
  intros comment.
  assert (∀ r, placeholder fw r = comment r) as Hc by (by destruct fw).
  assert ((create_zip_file code fw).1
          = loop_members code
            ++ match loop_raised code with
               | Some _ => []
               | None =>
                   ((λ req_file, (req_file, comment req_file))
                      <$> filter (λ req_file,
                                    req_file ∉ namelist (loop_members code))
                            (required_files fw))
                   ++ [(py "README.md", readme_content fw)]
               end) as Heq.
  { rewrite create_zip_file_unfold.
    destruct (loop_raised code); cbn [fst].
    - by rewrite app_nil_r.
    - set (missing := filter _ (required_files fw)).
      assert ((λ r, (r, placeholder fw r)) <$> missing
              = (λ r, (r, comment r)) <$> missing) as ->; [|done].
      apply list_fmap_ext. intros _ r _. by rewrite Hc. }
  split; [exact Heq|].
  intros entry. rewrite Heq, drop_app_length.
  destruct (loop_raised code); [by intros ?%elem_of_nil|].
  intros [Hin| ->%list_elem_of_singleton]%elem_of_app; [|by left].
  right. apply list_elem_of_fmap in Hin as (r & -> & Hr).
  apply list_elem_of_filter in Hr as [Hmiss Hreq]. done.
Qed.

Lemma placeholder_comment_witness :
  (py "script.js", py "/* script.js content missing */")
    ∈ drop (length (loop_members only_index_response))
        (create_zip_file only_index_response HtmlCssJs).1
  ∧ ((py "script.js", py "/* script.js content missing */")
     = (py "README.md", readme_content HtmlCssJs)
     ∨ (py "script.js" ∈ required_files HtmlCssJs
        ∧ (py "script.js" ∉ namelist (loop_members only_index_response))
        ∧ py "/* script.js content missing */"
          = py "/* " ++ py "script.js" ++ py " content missing */")).
Proof.
  assert ((py "script.js", py "/* script.js content missing */")
            ∈ drop (length (loop_members only_index_response))
                (create_zip_file only_index_response HtmlCssJs).1) as H.
  { apply (bool_decide_unpack _). vm_compute. exact I. }
  split; [exact H|].
  exact (proj2 (placeholder_comment_by_framework only_index_response HtmlCssJs)
           _ H).
Defined.

(** ** The two stored texts *)

(** C10. In every state a session can reach, the fine-tuned slot and the
    generated slot hold the same thing (nothing at all in a new session,
    the same text after any run of the script); hence a click on the
    download button, which tests the former and packs the latter, packs
    exactly the text it tested. *)
Theorem slots_agree (ss : gmap string pystr) :
  reachable ss →
  ss !! "fine_tuned_code"%string = ss !! "generated_code"%string
  ∧ attr ss "fine_tuned_code" = attr ss "generated_code"
  ∧ ∀ fw,
      on_download (init_session_state ss) fw
      = if is_empty (attr ss "fine_tuned_code")
        then [SidebarWarning (py "Generate the code first before downloading.")]
        else (create_zip_file (attr ss "fine_tuned_code") fw).2
             ++ [StDownloadButton
                   (create_zip_file (attr ss "fine_tuned_code") fw).1
                   (lower (framework_name fw) ++ py "_code_base.zip")].
Proof.
  intros Hreach.
  assert (ss !! "fine_tuned_code"%string = ss !! "generated_code"%string) as Heq.
  { induction Hreach as [|ss fw req style c service Hreach IH]; [done|].
    assert (init_session_state ss !! "fine_tuned_code"%string
            = init_session_state ss !! "generated_code"%string) as Hinit.
    { rewrite !init_session_state_lookup.
      rewrite !bool_decide_true by auto. unfold attr. by rewrite IH. }
    destruct c; unfold script; [|exact Hinit..].
    rewrite run_on_generate.
    destruct (is_empty (strip req)); [exact Hinit|].
    destruct (service fw req style) as [content|e]; [|exact Hinit].
    destruct (is_empty (strip content)); [exact Hinit|].
    cbn [fst]. unfold store.
    rewrite lookup_insert_eq, lookup_insert_ne by done.
    by rewrite lookup_insert_eq. }
  assert (attr ss "fine_tuned_code" = attr ss "generated_code") as Hattr.
  { unfold attr. by rewrite Heq. }
  split_and!; [done..|].
  intros fw. unfold on_download. rewrite !init_session_state_attr, <- Hattr.
  destruct (is_empty (attr ss "fine_tuned_code")); [done|].
  cbn [negb]. by destruct (create_zip_file _ _).
Qed.

Lemma slots_agree_witness :
  reachable
    (run scenario_A_service
       (script ∅ HtmlCssJs (py "a landing page") (py "Modern") ClickGenerate)).1.1
  ∧ attr (run scenario_A_service
            (script ∅ HtmlCssJs (py "a landing page") (py "Modern")
               ClickGenerate)).1.1 "fine_tuned_code"
    = attr (run scenario_A_service
              (script ∅ HtmlCssJs (py "a landing page") (py "Modern")
                 ClickGenerate)).1.1 "generated_code".
Proof.
  assert (reachable
            (run scenario_A_service
               (script ∅ HtmlCssJs (py "a landing page") (py "Modern")
                  ClickGenerate)).1.1) as H.
  { apply reachable_run. apply reachable_new. }
  split; [exact H|].
  exact (proj1 (proj2 (slots_agree _ H))).
Defined.

(** After that run the two slots do hold the Scenario A response. *)
Example slots_after_scenario_A :
  attr (run scenario_A_service
          (script ∅ HtmlCssJs (py "a landing page") (py "Modern")
             ClickGenerate)).1.1 "generated_code" = scenario_A.
Proof. vm_compute. reflexivity. Qed.

(** * Further properties of the code *)

(** ** Strings: stripping *)

Lemma lstrip_decompose (p : N → bool) (s : pystr) :
  ∃ l, s = l ++ lstrip p s ∧ forallb p l = true.
Proof.
  induction s as [|c s (l & Hs & Hl)]; [by exists []|].
  cbn [lstrip]. destruct (p c) eqn:Hc.
  - exists (c :: l). cbn. rewrite Hc, Hl. split; [by f_equal|done].
  - by exists [].
Qed.

Lemma lstrip_head (p : N → bool) (s : pystr) (c : N) (t : pystr) :
  lstrip p s = c :: t → p c = false.
Proof.
  induction s as [|x s IH]; cbn; [done|].
  destruct (p x) eqn:Hx; [done|]. by intros [= <- _].
Qed.

Lemma lstrip_all (p : N → bool) (s : pystr) :
  forallb p s = true → lstrip p s = [].
Proof.
  induction s as [|c s IH]; cbn; [done|].
  intros [-> H]%andb_true_iff. by apply IH.
Qed.

(** Stripping on the left stops at the first character outside the set. *)
Lemma lstrip_app_stop (p : N → bool) (l : pystr) (c : N) (r : pystr) :
  p c = false → lstrip p (l ++ c :: r) = lstrip p l ++ c :: r.
Proof.
  intros Hc. induction l as [|x l IH]; cbn.
  - by rewrite Hc.
  - by destruct (p x).
Qed.

Lemma lstrip_app_all (p : N → bool) (l s : pystr) :
  forallb p l = true → lstrip p (l ++ s) = lstrip p s.
Proof.
  induction l as [|x l IH]; cbn; [done|].
  intros [-> H]%andb_true_iff. by apply IH.
Qed.

Lemma lstrip_fixed (p : N → bool) (s : pystr) :
  (∀ c, head s = Some c → p c = false) → lstrip p s = s.
Proof.
  destruct s as [|c s]; [done|]. intros H. cbn. by rewrite (H c eq_refl).
Qed.

Lemma lstrip_lstrip (p : N → bool) (s : pystr) :
  lstrip p (lstrip p s) = lstrip p s.
Proof.
  apply lstrip_fixed. intros c Hc.
  destruct (lstrip p s) as [|x t] eqn:Hs; [done|].
  injection Hc as ->. by apply (lstrip_head p s c t).
Qed.

Lemma rstrip_decompose (p : N → bool) (s : pystr) :
  ∃ l, s = rstrip p s ++ l ∧ forallb p l = true.
Proof.
  unfold rstrip. destruct (lstrip_decompose p (rev s)) as (l & Hs & Hl).
  exists (rev l). split.
  - rewrite <- rev_app_distr, <- Hs. by rewrite rev_involutive.
  - rewrite forallb_forall in Hl |- *. intros x Hx. apply Hl.
    by apply in_rev.
Qed.

Lemma rstrip_cons_stop (p : N → bool) (c : N) (t : pystr) :
  p c = false → rstrip p (c :: t) = c :: rstrip p t.
Proof.
  intros Hc. unfold rstrip. cbn [rev].
  rewrite (lstrip_app_stop p (rev t) c [] Hc).
  rewrite rev_app_distr. reflexivity.
Qed.

Lemma rstrip_rstrip (p : N → bool) (s : pystr) :
  rstrip p (rstrip p s) = rstrip p s.
Proof. unfold rstrip. by rewrite rev_involutive, lstrip_lstrip. Qed.

(** A stripped string is not touched by either strip. *)
Lemma strip_chars_lstrip (p : N → bool) (s : pystr) :
  lstrip p (strip_chars p s) = strip_chars p s.
Proof.
  unfold strip_chars. destruct (lstrip p s) as [|c t] eqn:Hs; [done|].
  pose proof (lstrip_head p s c t Hs) as Hc.
  rewrite (rstrip_cons_stop p c t Hc). cbn. by rewrite Hc.
Qed.

Lemma strip_chars_idem (p : N → bool) (s : pystr) :
  strip_chars p (strip_chars p s) = strip_chars p s.
Proof.
  unfold strip_chars at 1. rewrite strip_chars_lstrip.
  unfold strip_chars. apply rstrip_rstrip.
Qed.

Lemma strip_chars_decompose (p : N → bool) (s : pystr) :
  ∃ l1 l2, s = l1 ++ strip_chars p s ++ l2
           ∧ forallb p l1 = true ∧ forallb p l2 = true.
Proof.
  destruct (lstrip_decompose p s) as (l1 & Hs & Hl1).
  destruct (rstrip_decompose p (lstrip p s)) as (l2 & Hr & Hl2).
  exists l1, l2. unfold strip_chars. split_and!; [|done..].
  by rewrite <- Hr.
Qed.

Lemma strip_chars_nil_iff (p : N → bool) (s : pystr) :
  strip_chars p s = [] ↔ forallb p s = true.
Proof.
  split.
  - intros Hs. destruct (strip_chars_decompose p s) as (l1 & l2 & Heq & H1 & H2).
    rewrite Hs in Heq. rewrite Heq. cbn.
    rewrite forallb_app. by rewrite H1, H2.
  - intros H. unfold strip_chars. by rewrite (lstrip_all p s H).
Qed.

Lemma slice_of_trans (x y z : pystr) : slice_of x y → slice_of y z → slice_of x z.
Proof.
  intros (a & b & ->) (c & d & ->). exists (c ++ a), (b ++ d).
  by rewrite <- !app_assoc.
Qed.

Lemma slice_of_elem (x s : pystr) (c : N) : slice_of x s → c ∈ x → c ∈ s.
Proof.
  intros (a & b & ->) Hc. rewrite !elem_of_app. auto.
Qed.

Lemma strip_chars_slice (p : N → bool) (s : pystr) :
  slice_of (strip_chars p s) s.
Proof.
  destruct (strip_chars_decompose p s) as (l1 & l2 & Heq & _). by exists l1, l2.
Qed.

(** ** Strings: what [split] keeps *)

Lemma starts_with_true_app (sep s : pystr) :
  starts_with sep s = true → s = sep ++ drop (length sep) s.
Proof.
  revert s. induction sep as [|a sep IH]; intros [|c s]; cbn; try done.
  intros [Hac Hs]%andb_true_iff. apply N.eqb_eq in Hac as ->.
  f_equal. by apply IH.
Qed.

(** The leftmost occurrence cuts the string in three. *)
Lemma find_Some_split (sep s : pystr) (i : nat) :
  find sep s = Some i →
  s = take i s ++ sep ++ drop (i + length sep) s.
Proof.
  revert i. induction s as [|c s IH]; intros i; cbn [find].
  - destruct (starts_with sep []) eqn:Hs; [|done].
    intros [= <-]. by apply starts_with_true_app in Hs.
  - destruct (starts_with sep (c :: s)) eqn:Hs.
    + intros [= <-]. by apply starts_with_true_app in Hs.
    + destruct (find sep s) as [j|]; [|done]. cbn. intros [= <-].
      cbn. f_equal. by apply IH.
Qed.

Lemma find_Some_shorter (sep s : pystr) (i : nat) :
  sep ≠ [] → find sep s = Some i →
  (length (drop (i + length sep) s) < length s)%nat.
Proof.
  intros Hsep Hf. rewrite length_drop.
  pose proof (f_equal length (find_Some_split _ _ _ Hf)) as Hlen.
  rewrite !length_app, length_drop in Hlen.
  destruct sep; [done|]. cbn in *. lia.
Qed.

(** Nothing before the leftmost occurrence contains the separator. *)
Lemma find_take_None (sep s : pystr) (i : nat) :
  sep ≠ [] → find sep s = Some i → find sep (take i s) = None.
Proof.
  intros Hsep. revert i. induction s as [|c s IH]; intros i; cbn [find].
  - destruct (starts_with sep []); [|done]. intros [= <-]. by destruct sep.
  - destruct (starts_with sep (c :: s)) eqn:Hs.
    + intros [= <-]. by destruct sep.
    + destruct (find sep s) as [j|] eqn:Hj; [|done]. cbn. intros [= <-].
      cbn [take find]. rewrite (IH j eq_refl).
      destruct (starts_with sep (c :: take j s)) eqn:Hs'; [|done].
      apply (starts_with_app_true _ _ (drop j s)) in Hs'.
      cbn [app] in Hs'. rewrite take_drop in Hs'. congruence.
Qed.

Lemma split_length_ind (P : pystr → Prop) :
  (∀ s, (∀ t, (length t < length s)%nat → P t) → P s) → ∀ s, P s.
Proof.
  intros H s. remember (length s) as n eqn:Hn. revert s Hn.
  induction n as [n IH] using lt_wf_ind. intros s ->.
  apply H. intros t Ht. by apply (IH (length t)).
Qed.

Lemma join_cons_split (sep p s : pystr) :
  join sep (p :: split sep s) = p ++ sep ++ join sep (split sep s).
Proof. rewrite split_cons. reflexivity. Qed.

Lemma split_join (sep s : pystr) : sep ≠ [] → join sep (split sep s) = s.
Proof.
  intros Hsep. induction s as [s IH] using split_length_ind.
  rewrite (split_unfold _ _ Hsep).
  destruct (find sep s) as [i|] eqn:Hf; [|done].
  rewrite join_cons_split, IH by (by apply find_Some_shorter).
  symmetry. by apply find_Some_split.
Qed.

Lemma split_pieces_clean (sep s p : pystr) :
  sep ≠ [] → p ∈ split sep s → find sep p = None.
Proof.
  intros Hsep. revert p. induction s as [s IH] using split_length_ind.
  intros p. rewrite (split_unfold _ _ Hsep).
  destruct (find sep s) as [i|] eqn:Hf.
  - intros [->|Hp]%elem_of_cons.
    + by apply find_take_None.
    + apply (IH (drop (i + length sep) s)); [|done].
      by apply find_Some_shorter.
  - by intros ->%list_elem_of_singleton.
Qed.

Lemma split_pieces_slices (sep s p : pystr) :
  sep ≠ [] → p ∈ split sep s → slice_of p s.
Proof.
  intros Hsep. revert p. induction s as [s IH] using split_length_ind.
  intros p. rewrite (split_unfold _ _ Hsep).
  destruct (find sep s) as [i|] eqn:Hf.
  - intros [->|Hp]%elem_of_cons.
    + exists [], (sep ++ drop (i + length sep) s). cbn.
      by apply find_Some_split.
    + apply (slice_of_trans _ (drop (i + length sep) s)).
      * apply IH; [|done]. by apply find_Some_shorter.
      * exists (take i s ++ sep), []. rewrite app_nil_r, <- app_assoc.
        by apply find_Some_split.
  - intros ->%list_elem_of_singleton. exists [], []. by rewrite app_nil_r.
Qed.

Lemma FILE_MARKER_nonempty : FILE_MARKER ≠ [].
Proof. by vm_compute. Qed.

(** ** Fragments and sections *)

(** X1. Cutting a response at the marker loses nothing and leaves no
    marker behind: the fragments joined by the marker give the response
    back, and no fragment contains the marker. *)
Theorem fragments_rejoin (code : pystr) :
  join FILE_MARKER (split FILE_MARKER code) = code
  ∧ ∀ f, f ∈ split FILE_MARKER code → find FILE_MARKER f = None.
Proof.
  split.
  - apply split_join, FILE_MARKER_nonempty.
  - intros f. apply split_pieces_clean, FILE_MARKER_nonempty.
Qed.

Lemma parse_section_Parsed (f file_name file_content : pystr) :
  parse_section f = Parsed file_name file_content →
  ∃ body, f = file_name ++ newline :: body
          ∧ (newline ∉ file_name)
          ∧ file_content = strip (strip_chars is_backtick body)
          ∧ is_empty (strip f) = false.
Proof.
  unfold parse_section. destruct (is_empty (strip f)) eqn:He; [done|].
  destruct (decide (newline ∈ f)) as [Hin|Hnot].
  - destruct (split_newline_once_present _ Hin) as (a & b & -> & Hf & Ha).
    intros [= <- <-]. by exists b.
  - by rewrite (split_newline_once_absent _ Hnot).
Qed.

Lemma is_empty_true (s : pystr) : is_empty s = true ↔ s = [].
Proof. by destruct s. Qed.


Lemma parsed_sections_elem (sections : list pystr) (path content : pystr) :
  (path, content) ∈ parsed_sections sections →
  ∃ f file_name, f ∈ sections
                 ∧ parse_section f = Parsed file_name content
                 ∧ path = strip file_name.
Proof.
  induction sections as [|s rest IH]; cbn; [by intros ?%elem_of_nil|].
  assert ((path, content) ∈ parsed_sections rest →
          ∃ f file_name, f ∈ s :: rest
                         ∧ parse_section f = Parsed file_name content
                         ∧ path = strip file_name) as Hrest.
  { intros (f & fn & Hf & Hp)%IH. exists f, fn. split; [by right|done]. }
  destruct (parse_section s) as [|fn fc|w] eqn:Hp; [done| |done].
  intros [[= -> ->]|Hin]%elem_of_cons; [|by apply Hrest].
  exists s, fn. split; [by left|done].
Qed.

(** X3. Extraction copies and never invents: the path and the content of
    every extracted entry are contiguous slices of the response; the path
    holds no newline; and neither begins or ends with whitespace
    (stripping them again changes nothing). *)
Theorem extracted_entries_are_trimmed_slices (code path content : pystr) :
  (path, content) ∈ extract_sections code →
  slice_of path code ∧ slice_of content code
  ∧ (newline ∉ path)
  ∧ strip path = path ∧ strip content = content.
Proof.
  rewrite extract_sections_spec.
  intros (f & fn & Hf & Hp & ->)%parsed_sections_elem.
  apply parse_section_Parsed in Hp as (body & Hfeq & Hfn & -> & _).
  apply (split_pieces_slices _ _ _ FILE_MARKER_nonempty) in Hf.
  split_and!.
  - apply (slice_of_trans _ fn); [apply strip_chars_slice|].
    apply (slice_of_trans _ f); [|done].
    exists [], (newline :: body). by rewrite Hfeq.
  - apply (slice_of_trans _ (strip_chars is_backtick body));
      [apply strip_chars_slice|].
    apply (slice_of_trans _ body); [apply strip_chars_slice|].
    apply (slice_of_trans _ f); [|done].
    exists (fn ++ [newline]), []. rewrite Hfeq, app_nil_r.
    by rewrite <- app_assoc.
  - intros Hin. apply Hfn.
    by apply (slice_of_elem _ _ _ (strip_chars_slice py_isspace fn)).
  - apply strip_chars_idem.
  - apply strip_chars_idem.
Qed.

Lemma extracted_entries_witness :
  (py "styles.css", py "css
h1{color:red;}
```") ∈ extract_sections scenario_A
  ∧ slice_of (py "css
h1{color:red;}
```") scenario_A.
Proof.
  assert ((py "styles.css", py "css
h1{color:red;}
```") ∈ extract_sections scenario_A) as H.
  { apply (bool_decide_unpack _). vm_compute. exact I. }
  split; [exact H|].
  exact (proj1 (proj2 (extracted_entries_are_trimmed_slices _ _ _ H))).
Defined.

(** ** Backticks at the two ends *)

Lemma forallb_replicate (p : N → bool) (n : nat) (c : N) :
  p c = true → forallb p (replicate n c) = true.
Proof. intros Hc. induction n as [|n IH]; cbn; [done|]. by rewrite Hc. Qed.

Lemma rstrip_app_all (p : N → bool) (s l : pystr) :
  forallb p l = true → rstrip p (s ++ l) = rstrip p s.
Proof.
  intros Hl. unfold rstrip. rewrite rev_app_distr.
  rewrite lstrip_app_all; [done|].
  rewrite forallb_forall in Hl |- *. intros x Hx. apply Hl. by apply in_rev.
Qed.

Lemma rstrip_fixed (p : N → bool) (s : pystr) :
  (∀ c, last s = Some c → p c = false) → rstrip p s = s.
Proof.
  destruct s as [|d t _] using rev_ind; [done|].
  intros H. unfold rstrip. rewrite rev_unit. cbn.
  rewrite (H d (last_snoc _ _)). cbn. by rewrite rev_involutive.
Qed.

(** X4. What [strip("```")] does remove: any run of backticks at the very
    start and at the very end of a body, however long, and nothing else.
    A body that is a text between two such runs is reduced to the text
    (and a section with that body gets the text, trimmed, as content)
    provided the text itself neither begins nor ends with a backtick. *)
Theorem backtick_runs_removed (n m : nat) (header text : pystr) :
  (∀ c, head text = Some c → c ≠ backtick) →
  (∀ c, last text = Some c → c ≠ backtick) →
  newline ∉ header →
  forallb py_isspace header = false →
  strip_chars is_backtick
    (replicate n backtick ++ text ++ replicate m backtick) = text
  ∧ parse_section
      (header ++ newline
         :: replicate n backtick ++ text ++ replicate m backtick)
    = Parsed header (strip text).
Proof.
  intros Hhead Hlast Hnl Hheader.
  assert (∀ k, forallb is_backtick (replicate k backtick) = true) as Hrun.
  { intros k. by apply forallb_replicate. }
  assert (strip_chars is_backtick
            (replicate n backtick ++ text ++ replicate m backtick) = text)
    as Hstrip.
  { unfold strip_chars. rewrite (lstrip_app_all _ _ _ (Hrun n)).
    destruct text as [|c t].
    - cbn [app]. by rewrite (lstrip_all _ _ (Hrun m)).
    - assert (is_backtick c = false) as Hc.
      { apply N.eqb_neq. by apply Hhead. }
      cbn [app lstrip]. rewrite Hc.
      change (c :: t ++ replicate m backtick)
        with ((c :: t) ++ replicate m backtick).
      rewrite (rstrip_app_all _ _ _ (Hrun m)). apply rstrip_fixed.
      intros x Hx. apply N.eqb_neq. by apply Hlast. }
  split; [exact Hstrip|].
  unfold parse_section.
  rewrite (split_newline_once_app _ _ Hnl), Hstrip.
  destruct (is_empty _) eqn:He; [|done].
  apply is_empty_true, strip_chars_nil_iff in He.
  rewrite forallb_app in He. by rewrite Hheader in He.
Qed.

Lemma backtick_runs_witness :
  (∀ c, head (py "x=1;") = Some c → c ≠ backtick)
  ∧ (∀ c, last (py "x=1;") = Some c → c ≠ backtick)
  ∧ (newline ∉ py "a.js")
  ∧ forallb py_isspace (py "a.js") = false
  ∧ parse_section
      (py "a.js" ++ newline
         :: replicate 3 backtick ++ py "x=1;" ++ replicate 3 backtick)
    = Parsed (py "a.js") (strip (py "x=1;")).
Proof.
  assert (∀ c, head (py "x=1;") = Some c → c ≠ backtick) as H1.
  { intros c Hc. vm_compute in Hc. injection Hc as <-. discriminate. }
  assert (∀ c, last (py "x=1;") = Some c → c ≠ backtick) as H2.
  { intros c Hc. vm_compute in Hc. injection Hc as <-. discriminate. }
  assert (newline ∉ py "a.js") as H3.
  { apply (bool_decide_unpack _). vm_compute. exact I. }
  assert (forallb py_isspace (py "a.js") = false) as H4
    by (vm_compute; reflexivity).
  split_and!; [exact H1|exact H2|exact H3|exact H4|].
  exact (proj2 (backtick_runs_removed 3 3 (py "a.js") (py "x=1;") H1 H2 H3 H4)).
Defined.

(** ** Warnings *)

Lemma format_warnings_malformed (sections : list pystr) (f : pystr) :
  f ∈ sections → newline ∉ f → forallb py_isspace f = false →
  StWarning (bad_format_warning f) ∈ format_warnings sections.
Proof.
  intros Hf Hn Hb. induction sections as [|s rest IH]; [by apply elem_of_nil in Hf|].
  cbn. apply elem_of_cons in Hf as [<-|Hf].
  - rewrite (parse_section_no_newline _ Hn).
    destruct (is_empty (strip f)) eqn:He; [|by left].
    apply is_empty_true, strip_chars_nil_iff in He. congruence.
  - destruct (parse_section s); [by apply IH..|]. right. by apply IH.
Qed.

Lemma parse_section_BadFormat (f w : pystr) :
  parse_section f = BadFormat w →
  w = bad_format_warning f ∧ (newline ∉ f) ∧ forallb py_isspace f = false.
Proof.
  unfold parse_section. destruct (is_empty (strip f)) eqn:He; [done|].
  assert (forallb py_isspace f = false) as Hb.
  { destruct (forallb py_isspace f) eqn:Hb; [|done].
    apply strip_chars_nil_iff, is_empty_true in Hb.
    unfold strip in He. congruence. }
  destruct (decide (newline ∈ f)) as [Hin|Hnot].
  - by destruct (split_newline_once_present _ Hin) as (a & b & -> & _).
  - rewrite (split_newline_once_absent _ Hnot). by intros [= <-].
Qed.

Lemma format_warnings_elem (sections : list pystr) (e : ui_event) :
  e ∈ format_warnings sections →
  ∃ f, f ∈ sections ∧ (newline ∉ f) ∧ forallb py_isspace f = false
       ∧ e = StWarning (bad_format_warning f).
Proof.
  induction sections as [|s rest IH]; cbn; [by intros ?%elem_of_nil|].
  assert (e ∈ format_warnings rest →
          ∃ f, f ∈ s :: rest ∧ (newline ∉ f) ∧ forallb py_isspace f = false
               ∧ e = StWarning (bad_format_warning f)) as Hrest.
  { intros (f & Hf & H)%IH. exists f. split; [by right|done]. }
  destruct (parse_section s) as [| |w] eqn:Hp; [done..|].
  intros [->|He]%elem_of_cons; [|by apply Hrest].
  apply parse_section_BadFormat in Hp as (-> & Hn & Hb).
  exists s. split; [by left|done].
Qed.

(** X5. For a response whose extracted entries the archive writer
    stores as they are, the download shows exactly the format warnings that
    the live preview of the same text shows, whatever the framework and in
    the same order; and a warning is shown for a fragment exactly when the
    fragment is not blank and has no newline. *)
Theorem download_and_preview_warn_alike (code : pystr) (fw : framework)
    (v : preview_vars) :
  forallb writable (extract_sections code) = true →
  (create_zip_file code fw).2 = (preview_loop (split FILE_MARKER code) v).2
  ∧ ∀ e, e ∈ (create_zip_file code fw).2 ↔
         ∃ f, f ∈ split FILE_MARKER code ∧ (newline ∉ f)
              ∧ forallb py_isspace f = false
              ∧ e = StWarning (bad_format_warning f).
Proof.
  intros Hw. rewrite (create_zip_file_members _ _ Hw), preview_loop_warnings.
  cbn [snd]. split; [done|]. intros e. split.
  - apply format_warnings_elem.
  - intros (f & Hf & Hn & Hb & ->). by apply format_warnings_malformed.
Qed.

Lemma download_and_preview_witness :
  forallb writable (extract_sections cut_header_response) = true
  ∧ (create_zip_file cut_header_response Angular).2
    = (preview_loop (split FILE_MARKER cut_header_response)
         (PreviewVars [] [] [])).2.
Proof.
  assert (forallb writable (extract_sections cut_header_response) = true)
    as H by (vm_compute; reflexivity).
  split; [exact H|].
  exact (proj1 (download_and_preview_warn_alike cut_header_response Angular
                  (PreviewVars [] [] []) H)).
Defined.

(** ** The finished archive *)

(** A name that does not make [writestr] leave the loop: it is not empty
    up to its first NUL and has at most 65535 bytes there. *)
Lemma writestr_named (zf : zipfile) (p c : pystr) :
  is_empty (cut_at_nul p) = false →
  (utf8_length (cut_at_nul p) <=? 65535) = true →
  (∃ zf', writestr zf p c = inl zf') ∨ (∃ msg, writestr zf p c = inr (ValueError msg)).
Proof.
  intros Hne Hlen. unfold writestr. rewrite Hne.
  apply N.leb_le in Hlen.
  destruct (existsb is_surrogate c); [right; by eexists|].
  destruct (existsb is_surrogate (cut_at_nul p)); [right; by eexists|].
  destruct (N.ltb_spec 65535 (utf8_length (cut_at_nul p))); [lia|].
  left. by eexists.
Qed.

Lemma write_sections_named (sections : list pystr) (zf : zipfile) :
  forallb (λ entry, negb (is_empty (cut_at_nul entry.1))
                    && (utf8_length (cut_at_nul entry.1) <=? 65535))
    (parsed_sections sections) = true →
  (write_sections sections zf).2 = None.
Proof.
  revert zf. induction sections as [|s rest IH]; intros zf; [done|].
  cbn [parsed_sections write_sections].
  destruct (parse_section s) as [|fn fc|w].
  - apply IH.
  - cbn [forallb fst]. intros [[Hne Hlen]%andb_true_iff Hrest]%andb_true_iff.
    apply negb_true_iff in Hne.
    destruct (writestr_named zf (strip fn) fc Hne Hlen) as [[zf' ->]|[msg ->]].
    + by apply IH.
    + specialize (IH zf Hrest).
      by destruct (write_sections rest zf) as [[? ?] ?].
  - intros Hrest. specialize (IH zf Hrest).
    by destruct (write_sections rest zf) as [[? ?] ?].
Qed.

Lemma write_sections_warnings (sections : list pystr) (zf : zipfile)
    (e : ui_event) :
  e ∈ (write_sections sections zf).1.2 → ∃ msg, e = StWarning msg.
Proof.
  revert zf. induction sections as [|s rest IH]; intros zf;
    [by intros ?%elem_of_nil|].
  cbn [write_sections]. destruct (parse_section s) as [|fn fc|w].
  - apply IH.
  - destruct (writestr zf (strip fn) fc) as [zf'|[msg|msg]].
    + apply IH.
    + specialize (IH zf).
      destruct (write_sections rest zf) as [[? ?] ?]. cbn in *.
      intros [->|He]%elem_of_cons; [by eexists|by apply IH].
    + by intros ?%elem_of_nil.
  - specialize (IH zf).
    destruct (write_sections rest zf) as [[? ?] ?]. cbn in *.
    intros [->|He]%elem_of_cons; [by eexists|by apply IH].
Qed.

(** X6. When every extracted path is not empty up to its first NUL and
    has at most 65535 bytes there, packaging runs to its end: the archive
    holds every file of the framework's checklist under its name, its last
    member is the generated [README.md], and no error is shown. *)
Theorem archive_always_complete (code : pystr) (fw : framework) :
  forallb (λ entry, negb (is_empty (cut_at_nul entry.1))
                    && (utf8_length (cut_at_nul entry.1) <=? 65535))
    (extract_sections code) = true →
  (∀ req_file, req_file ∈ required_files fw →
     req_file ∈ namelist (create_zip_file code fw).1)
  ∧ last (create_zip_file code fw).1
    = Some (py "README.md", readme_content fw)
  ∧ ∀ msg, StError msg ∉ (create_zip_file code fw).2.
Proof.
  intros Hnamed. rewrite create_zip_file_unfold.
  assert (loop_raised code = None) as -> by (by apply write_sections_named).
  cbn [fst snd]. split_and!.
  - intros r Hr. rewrite namelist_members, !elem_of_app.
    destruct (decide (r ∈ namelist (loop_members code))) as [?|Hn];
      [by left|].
    right. left. by apply list_elem_of_filter.
  - rewrite app_assoc. apply last_snoc.
  - intros msg Hin. by apply write_sections_warnings in Hin as [w Hw].
Qed.

Lemma archive_always_complete_witness :
  forallb (λ entry, negb (is_empty (cut_at_nul entry.1))
                    && (utf8_length (cut_at_nul entry.1) <=? 65535))
    (extract_sections only_index_response) = true
  ∧ last (create_zip_file only_index_response React).1
    = Some (py "README.md", readme_content React).
Proof.
  assert (forallb (λ entry, negb (is_empty (cut_at_nul entry.1))
                            && (utf8_length (cut_at_nul entry.1) <=? 65535))
            (extract_sections only_index_response) = true) as H
    by (vm_compute; reflexivity).
  split; [exact H|].
  exact (proj1 (proj2 (archive_always_complete only_index_response React H))).
Defined.

Lemma filter_named_placeholders (content : pystr → pystr)
    (missing : list pystr) (name : pystr) :
  name ∉ missing →
  filter (λ m : pystr * pystr, m.1 = name) ((λ r, (r, content r)) <$> missing)
  = [].
Proof.
  induction missing as [|r missing IH]; [done|].
  intros [Hne Hm]%not_elem_of_cons. cbn [fmap list_fmap].
  rewrite filter_cons_False by (cbn; congruence). by apply IH.
Qed.

(** X7. A file that the section loop wrote is never joined or replaced by
    a placeholder: for every member name of the loop other than
    [README.md], the members of the finished archive under that name are
    exactly those the loop wrote. *)
Theorem extracted_file_kept (code : pystr) (fw : framework) (name : pystr) :
  name ∈ namelist (loop_members code) →
  name ≠ py "README.md" →
  filter (λ m : pystr * pystr, m.1 = name) (create_zip_file code fw).1
  = filter (λ m : pystr * pystr, m.1 = name) (loop_members code).
Proof.
  intros Hin Hne. rewrite create_zip_file_unfold.
  destruct (loop_raised code); cbn [fst]; [done|].
  rewrite !filter_app, filter_named_placeholders.
  - rewrite filter_cons_False by (cbn; congruence).
    rewrite filter_nil. by rewrite !app_nil_r.
  - rewrite list_elem_of_filter. tauto.
Qed.

Lemma extracted_file_kept_witness :
  py "index.html" ∈ namelist (loop_members duplicate_response)
  ∧ py "index.html" ≠ py "README.md"
  ∧ filter (λ m : pystr * pystr, m.1 = py "index.html")
      (create_zip_file duplicate_response HtmlCssJs).1
    = filter (λ m : pystr * pystr, m.1 = py "index.html")
        (loop_members duplicate_response).
Proof.
  assert (py "index.html" ∈ namelist (loop_members duplicate_response))
    as H1.
  { apply (bool_decide_unpack _). vm_compute. exact I. }
  assert (py "index.html" ≠ py "README.md") as H2.
  { vm_compute. discriminate. }
  split_and!; [exact H1|exact H2|].
  exact (extracted_file_kept duplicate_response HtmlCssJs
           (py "index.html") H1 H2).
Defined.

(** X8. The member names of the archive are pairwise distinct exactly
    when the names written by the section loop are pairwise distinct and,
    if the loop ran to its end, none of them is [README.md]: a placeholder
    never clashes with a member of the loop or with another placeholder. *)
Theorem archive_names_distinct_iff (code : pystr) (fw : framework) :
  NoDup (namelist (create_zip_file code fw).1)
  ↔ NoDup (namelist (loop_members code))
    ∧ (loop_raised code = None → py "README.md" ∉ namelist (loop_members code)).
Proof.
  rewrite create_zip_file_unfold.
  destruct (loop_raised code) as [e|]; cbn [fst].
  { split; [by intros ?|by intros [? _]]. }
  rewrite namelist_members.
  set (E := namelist (loop_members code)).
  set (M := filter (λ r, r ∉ E) (required_files fw)).
  assert (NoDup (M ++ [py "README.md"])) as HM.
  { apply NoDup_app. split_and!.
    - apply NoDup_filter, required_files_NoDup.
    - intros x Hx ->%list_elem_of_singleton.
      apply list_elem_of_filter in Hx as [_ Hx].
      by apply (required_files_not_readme fw).
    - apply NoDup_singleton. }
  rewrite NoDup_app. split.
  - intros (HE & Hdisj & _). split; [done|]. intros _.
    intros Hin. apply (Hdisj _ Hin). rewrite elem_of_app. right.
    by apply list_elem_of_singleton.
  - intros [HE Hreadme]. specialize (Hreadme eq_refl).
    split_and!; [done| |done].
    intros x Hx [HxM| ->%list_elem_of_singleton]%elem_of_app; [|done].
    by apply list_elem_of_filter in HxM as [HxM _].
Qed.

(** ** Blank responses *)

Lemma blank_has_no_marker (code : pystr) :
  forallb py_isspace code = true → find FILE_MARKER code = None.
Proof.
  induction code as [|c s IH]; [done|]. cbn [forallb].
  intros [Hc Hs]%andb_true_iff. cbn [find].
  assert (starts_with FILE_MARKER (c :: s) = false) as ->.
  { change FILE_MARKER with (0x23 :: py "## FILE: "). cbn [starts_with].
    destruct (N.eqb_spec 0x23 c) as [<-|_]; [|done].
    vm_compute in Hc. discriminate Hc. }
  by rewrite (IH Hs).
Qed.

Lemma filter_none_extracted (l : list pystr) :
  filter (λ r, r ∉ namelist []) l = l.
Proof.
  induction l as [|x l IH]; [done|].
  rewrite filter_cons_True by apply not_elem_of_nil. by rewrite IH.
Qed.

(** X9. A response made of whitespace only (the empty one included) is
    packed without any warning into the placeholders of the whole
    checklist, in the order of the checklist, followed by the README; and
    its live preview is the one warning that nothing could be extracted. *)
Theorem blank_response_archive (code : pystr) (fw : framework) :
  forallb py_isspace code = true →
  (create_zip_file code fw).1
  = ((λ req_file, (req_file, placeholder fw req_file)) <$> required_files fw)
    ++ [(py "README.md", readme_content fw)]
  ∧ (create_zip_file code fw).2 = []
  ∧ live_preview code = [StWarning preview_missing_warning].
Proof.
  intros Hblank.
  assert (split FILE_MARKER code = [code]) as Hsplit.
  { apply split_no_occurrence. by apply blank_has_no_marker. }
  assert (parse_section code = Blank) as Hp.
  { unfold parse_section, strip.
    by rewrite (proj2 (is_empty_true _) (proj2 (strip_chars_nil_iff _ _) Hblank)). }
  assert (extract_sections code = []) as He.
  { rewrite extract_sections_spec, Hsplit. cbn. by rewrite Hp. }
  assert (forallb writable (extract_sections code) = true) as Hw
    by (by rewrite He).
  rewrite (create_zip_file_members _ _ Hw), He. cbn [fst snd app].
  split_and!.
  - by rewrite filter_none_extracted.
  - rewrite Hsplit. cbn. by rewrite Hp.
  - unfold live_preview. rewrite Hsplit. cbn. by rewrite Hp.
Qed.

Lemma blank_response_witness :
  forallb py_isspace (py "  
 ") = true
  ∧ (create_zip_file (py "  
 ") HtmlCssJs).1
    = ((λ req_file, (req_file, placeholder HtmlCssJs req_file))
         <$> required_files HtmlCssJs)
      ++ [(py "README.md", readme_content HtmlCssJs)].
Proof.
  assert (forallb py_isspace (py "  
 ") = true) as H by (vm_compute; reflexivity).
  split; [exact H|].
  exact (proj1 (blank_response_archive _ HtmlCssJs H)).
Defined.

(** ** What a run of the script changes *)

Lemma attr_store (ss : gmap string pystr) (g : pystr) :
  attr (store ss g) "generated_code" = g
  ∧ attr (store ss g) "fine_tuned_code" = g.
Proof.
  unfold attr, store. rewrite lookup_insert_ne by done.
  by rewrite !lookup_insert_eq.
Qed.

(** The state and the number of requests of a run, case by case. *)
Lemma run_script_cases (service : framework → pystr → pystr → completion)
    (ss : gmap string pystr) (fw : framework) (req style : pystr) (c : click) :
  let r := run service (script ss fw req style c) in
  (r.1.1 = init_session_state ss ∧ (r.2 ≤ 1)%nat
   ∧ (r.2 = 1%nat → c = ClickGenerate ∧ is_empty (strip req) = false))
  ∨ (c = ClickGenerate ∧ is_empty (strip req) = false ∧ r.2 = 1%nat
     ∧ ∃ content, service fw req style = ApiContent content
                  ∧ is_empty (strip content) = false
                  ∧ r.1.1 = store (init_session_state ss) (strip content)).
Proof.
  destruct c; unfold script; cbn [run fst snd];
    [|left; split_and!; [done|lia|done]..].
  rewrite run_on_generate.
  destruct (is_empty (strip req)) eqn:Hreq;
    [left; cbn; split_and!; [done|lia|done]|].
  destruct (service fw req style) as [content|e] eqn:Hans;
    [|left; cbn; split_and!; [done|lia|done]].
  destruct (is_empty (strip content)) eqn:Hc;
    [left; cbn; split_and!; [done|lia|done]|].
  right. cbn. split_and!; [done..|]. by exists content.
Qed.

(** X10. In every state a session can reach, the stored generated text
    and the stored fine-tuned text are trimmed: stripping them again
    changes nothing (the response is stored after [strip()], and nothing
    else is ever stored). *)
Theorem stored_text_is_trimmed (ss : gmap string pystr) :
  reachable ss →
  strip (attr ss "generated_code") = attr ss "generated_code"
  ∧ strip (attr ss "fine_tuned_code") = attr ss "fine_tuned_code".
Proof.
  induction 1 as [|ss fw req style c service Hreach IH]; [done|].
  destruct (run_script_cases service ss fw req style c)
    as [(-> & _)|(_ & _ & _ & content & _ & _ & ->)].
  - by rewrite !init_session_state_attr.
  - destruct (attr_store (init_session_state ss) (strip content)) as [-> ->].
    split; apply strip_chars_idem.
Qed.

Lemma stored_text_witness :
  reachable
    (run scenario_A_service
       (script ∅ React (py "a shop") (py "Dark") ClickGenerate)).1.1
  ∧ strip (attr (run scenario_A_service
                   (script ∅ React (py "a shop") (py "Dark")
                      ClickGenerate)).1.1 "generated_code")
    = attr (run scenario_A_service
              (script ∅ React (py "a shop") (py "Dark")
                 ClickGenerate)).1.1 "generated_code".
Proof.
  assert (reachable
            (run scenario_A_service
               (script ∅ React (py "a shop") (py "Dark")
                  ClickGenerate)).1.1) as H.
  { apply reachable_run, reachable_new. }
  split; [exact H|].
  exact (proj1 (stored_text_is_trimmed _ H)).
Defined.

(** X11. A run of the script, whatever the click, the inputs and the
    answer of the service, makes at most one completion request, and none
    unless the generate button was clicked with requirements that are not
    blank; it leaves the two stored texts as they were, unless it is a
    generation whose answer is not blank, in which case both become that
    answer trimmed.  Hence a stored text that is not empty never becomes
    empty again: a failed generation does not take the download away. *)
Theorem run_changes_text_only_on_success
    (service : framework → pystr → pystr → completion)
    (ss : gmap string pystr) (fw : framework) (req style : pystr) (c : click) :
  let r := run service (script ss fw req style c) in
  (r.2 ≤ 1)%nat
  ∧ (r.2 = 1%nat → c = ClickGenerate ∧ is_empty (strip req) = false)
  ∧ ((attr r.1.1 "generated_code" = attr ss "generated_code"
      ∧ attr r.1.1 "fine_tuned_code" = attr ss "fine_tuned_code")
     ∨ (c = ClickGenerate ∧ is_empty (strip req) = false
        ∧ ∃ content, service fw req style = ApiContent content
                     ∧ strip content ≠ []
                     ∧ attr r.1.1 "generated_code" = strip content
                     ∧ attr r.1.1 "fine_tuned_code" = strip content))
  ∧ (attr ss "generated_code" ≠ [] → attr r.1.1 "generated_code" ≠ []).
Proof.
  intros r. subst r.
  destruct (run_script_cases service ss fw req style c)
    as [(Hs & Hle & Hone)|(Hc & Hreq & Hn & content & Hans & Hne & Hs)].
  - rewrite Hs, !init_session_state_attr.
    split_and!; [done|done|by left|done].
  - destruct (attr_store (init_session_state ss) (strip content)) as [Hg Ht].
    assert (strip content ≠ []) as Hne'.
    { intros Hnil. by rewrite Hnil in Hne. }
    rewrite Hs, Hg, Ht. split_and!; [by rewrite Hn|done| |done].
    right. split_and!; [done..|]. by exists content.
Qed.

Lemma run_changes_text_witness :
  attr (store ∅ scenario_A) "generated_code" ≠ []
  ∧ attr (run failing_service
            (script (store ∅ scenario_A) Angular (py "a blog") (py "Light")
               ClickGenerate)).1.1 "generated_code" ≠ [].
Proof.
  assert (attr (store ∅ scenario_A) "generated_code" ≠ []) as H.
  { vm_compute. discriminate. }
  split; [exact H|].
  exact (proj2 (proj2 (proj2
    (run_changes_text_only_on_success failing_service (store ∅ scenario_A)
       Angular (py "a blog") (py "Light") ClickGenerate))) H).
Defined.

(** X12. Generation and download compose through the session: after a
    generation whose answer is not blank, a click on the download button
    packs exactly that answer, trimmed, under the framework selected at
    the time of the download (which need not be the one the text was
    generated for), offers it under that framework's file name, and
    leaves the session as it was. *)
Theorem generate_then_download
    (service service' : framework → pystr → pystr → completion)
    (ss : gmap string pystr) (fw fw' : framework)
    (req style content req' style' : pystr) :
  is_empty (strip req) = false →
  service fw req style = ApiContent content →
  is_empty (strip content) = false →
  let ss1 := (run service (script ss fw req style ClickGenerate)).1.1 in
  (run service' (script ss1 fw' req' style' ClickDownload)).1
  = (ss1,
     (create_zip_file (strip content) fw').2
     ++ [StDownloadButton (create_zip_file (strip content) fw').1
           (lower (framework_name fw') ++ py "_code_base.zip")]).
Proof.
  intros Hreq Hans Hne ss1. subst ss1. unfold script.
  rewrite run_on_generate, Hreq, Hans, Hne. cbn [run fst snd].
  rewrite init_session_state_store. f_equal.
  unfold on_download.
  destruct (attr_store (init_session_state ss) (strip content)) as [-> ->].
  rewrite Hne. cbn [negb]. by destruct (create_zip_file _ _).
Qed.

Lemma generate_then_download_witness :
  is_empty (strip (py "a shop")) = false
  ∧ scenario_A_service React (py "a shop") (py "Dark") = ApiContent scenario_A
  ∧ is_empty (strip scenario_A) = false
  ∧ (run failing_service
       (script (run scenario_A_service
                  (script ∅ React (py "a shop") (py "Dark") ClickGenerate)).1.1
          HtmlCssJs [] [] ClickDownload)).1.2
    = (create_zip_file (strip scenario_A) HtmlCssJs).2
      ++ [StDownloadButton (create_zip_file (strip scenario_A) HtmlCssJs).1
            (lower (framework_name HtmlCssJs) ++ py "_code_base.zip")].
Proof.
  assert (is_empty (strip (py "a shop")) = false) as H1
    by (vm_compute; reflexivity).
  assert (scenario_A_service React (py "a shop") (py "Dark")
          = ApiContent scenario_A) as H2 by reflexivity.
  assert (is_empty (strip scenario_A) = false) as H3
    by (vm_compute; reflexivity).
  split_and!; [exact H1|exact H2|exact H3|].
  exact (f_equal snd
    (generate_then_download scenario_A_service failing_service ∅ React
       HtmlCssJs (py "a shop") (py "Dark") scenario_A [] [] H1 H2 H3)).
Defined.

(** ** The prompt and the checklists *)

Lemma find_Some_slice (x s : pystr) (i : nat) :
  find x s = Some i → slice_of x s.
Proof.
  intros Hf. exists (take i s), (drop (i + length x) s).
  by apply find_Some_split.
Qed.

Lemma slice_of_prompt (x : pystr) (fw : framework) (req style : pystr) :
  slice_of x prompt_text_3 → slice_of x (prompt fw req style).
Proof.
  intros Hx. apply (slice_of_trans _ _ _ Hx). unfold prompt.
  exists (prompt_text_0 ++ framework_name fw ++ prompt_text_1 ++ req
          ++ prompt_text_2 ++ style),
    (framework_name fw ++ prompt_text_4 ++ style ++ prompt_text_5 ++ style
     ++ prompt_text_6).
  by rewrite <- !app_assoc.
Qed.

(** X13. Whatever framework is selected and whatever the user typed, the
    prompt sent to the completion service spells out, on a line that ends
    there and with the very marker the extraction splits on, every file of
    the checklists of all three frameworks, except [package.json] of the
    React checklist, which the fixed text of the prompt never mentions. *)
Theorem prompt_requests_checklist (fw selected : framework)
    (req style req_file : pystr) :
  req_file ∈ required_files fw →
  req_file ≠ py "package.json" →
  slice_of (FILE_MARKER ++ req_file ++ [newline]) (prompt selected req style)
  ∧ Forall (λ text, find (py "package.json") text = None)
      [prompt_text_0; prompt_text_1; prompt_text_2; prompt_text_3;
       prompt_text_4; prompt_text_5; prompt_text_6].
Proof.
  intros Hreq Hne. split.
  - apply slice_of_prompt.
    destruct fw; cbn [required_files] in Hreq;
      repeat (apply elem_of_cons in Hreq as [->|Hreq]);
      try (by apply elem_of_nil in Hreq); try done;
      match goal with
      | |- slice_of ?x prompt_text_3 =>
          let H := fresh in
          destruct (find x prompt_text_3) as [i|] eqn:H;
          [exact (find_Some_slice _ _ _ H)|vm_compute in H; discriminate H]
      end.
  - repeat apply Forall_cons_2; [..|apply Forall_nil_2]; by vm_compute.
Qed.

Lemma prompt_requests_witness :
  py "src/App.js" ∈ required_files React
  ∧ py "src/App.js" ≠ py "package.json"
  ∧ slice_of (FILE_MARKER ++ py "src/App.js" ++ [newline])
      (prompt Angular (py "a shop") (py "Dark")).
Proof.
  assert (py "src/App.js" ∈ required_files React) as H1.
  { apply (bool_decide_unpack _). vm_compute. exact I. }
  assert (py "src/App.js" ≠ py "package.json") as H2.
  { vm_compute. discriminate. }
  split_and!; [exact H1|exact H2|].
  exact (proj1 (prompt_requests_checklist React Angular (py "a shop")
                  (py "Dark") (py "src/App.js") H1 H2)).
Defined.

(** ** A header line that is blank *)


